(** * Intel PCH thermal sensor driver (kernel/dev/thermal/intel_pch_thermal)

    A shallow embedding of [thermal.cpp]: the driver's singleton context, the
    memory-mapped register block, the part of the PCIe bus framework and of the
    virtual-memory manager the driver talks to, and the four driver entry
    points [pch_thermal_probe], [pch_thermal_startup], [pch_thermal_shutdown]
    and [pch_thermal_release] together with the shared [pch_thermal_cleanup]. *)

From Stdlib Require Import ZArith Lia.
From stdpp Require Import base option list gmap.

Local Open Scope Z_scope.

(** ** Machine integers

    Fixed-width C++ integers are carried as [Z]; every conversion the source
    performs is written out as the wrap-around it is. *)

Definition uint8 (z : Z) : Z := z mod 2 ^ 8.
Definition uint16 (z : Z) : Z := z mod 2 ^ 16.
Definition uint32 (z : Z) : Z := z mod 2 ^ 32.
Definition uint64 (z : Z) : Z := z mod 2 ^ 64.
Definition int16 (z : Z) : Z := (z + 2 ^ 15) mod 2 ^ 16 - 2 ^ 15.

(** ** Status codes, pointers

    [status_t]: the file names [NO_ERROR] and [ERR_INVALID_ARGS]; every other
    status a framework call may hand back is [ERR_OTHER]. *)

Inductive status_t : Type :=
  | NO_ERROR
  | ERR_INVALID_ARGS
  | ERR_OTHER (code : Z).

#[global] Instance status_t_eq_dec : EqDecision status_t.
Proof. solve_decision. Defined.

(** Addresses ([vaddr_t], [vmm_aspace_t*], the mapped register pointer) are
    integers, the null pointer being 0. *)
Definition NULL : Z := 0.

(** The [void*] driver-context handles exchanged with the bus framework: null,
    the address of the one global [g_pch_thermal_context], or anything else. *)
Inductive void_ptr : Type :=
  | null_ptr
  | addr_g_pch_thermal_context
  | addr_other (a : Z).

#[global] Instance void_ptr_eq_dec : EqDecision void_ptr.
Proof. solve_decision. Defined.

(** ** Driver state and hardware registers *)

(** [struct pch_thermal_context]. *)
Record pch_thermal_context : Type := {
  aspace : Z;
  regs : Z;
  device_claimed : bool
}.

(** The fields of [struct pch_thermal_registers] the driver touches:
    [tsel] (8 bits), [ctt] (16 bits, the threshold in its low 9) and [tsc]
    (8 bits). *)
Record pch_thermal_registers : Type := {
  tsel : Z;
  ctt : Z;
  tsc : Z
}.

(** ** The PCIe device object behind a [RefPtr<pcie_device_state_t>] *)

Inductive pcie_irq_mode_t : Type :=
  | PCIE_IRQ_MODE_DISABLED
  | PCIE_IRQ_MODE_LEGACY.

(** [pcie_bar_info_t]: bus address and size of a base-address register. *)
Record pcie_bar_info_t : Type := {
  bus_addr : Z;
  bar_size : Z
}.

Record pcie_device_state_t : Type := {
  vendor_id : Z;
  device_id : Z;
  driver_ctx : void_ptr;
  bar0 : option pcie_bar_info_t;      (* what pcie_get_bar_info(dev, 0) finds *)
  irq_mode : pcie_irq_mode_t;
  irq_handler_registered : bool;      (* a handler is installed for IRQ 0 *)
  irq_masked : bool;                  (* IRQ 0 is masked *)
  mmio_enabled : bool
}.

Definition with_driver_ctx (p : void_ptr) (d : pcie_device_state_t) :=
  {| vendor_id := vendor_id d; device_id := device_id d; driver_ctx := p;
     bar0 := bar0 d; irq_mode := irq_mode d;
     irq_handler_registered := irq_handler_registered d;
     irq_masked := irq_masked d; mmio_enabled := mmio_enabled d |}.

Definition with_irq_mode (m : pcie_irq_mode_t) (d : pcie_device_state_t) :=
  {| vendor_id := vendor_id d; device_id := device_id d;
     driver_ctx := driver_ctx d; bar0 := bar0 d; irq_mode := m;
     irq_handler_registered := irq_handler_registered d;
     irq_masked := irq_masked d; mmio_enabled := mmio_enabled d |}.

Definition with_irq_handler (b : bool) (d : pcie_device_state_t) :=
  {| vendor_id := vendor_id d; device_id := device_id d;
     driver_ctx := driver_ctx d; bar0 := bar0 d; irq_mode := irq_mode d;
     irq_handler_registered := b;
     irq_masked := irq_masked d; mmio_enabled := mmio_enabled d |}.

Definition with_irq_masked (b : bool) (d : pcie_device_state_t) :=
  {| vendor_id := vendor_id d; device_id := device_id d;
     driver_ctx := driver_ctx d; bar0 := bar0 d; irq_mode := irq_mode d;
     irq_handler_registered := irq_handler_registered d;
     irq_masked := b; mmio_enabled := mmio_enabled d |}.

Definition with_mmio_enabled (b : bool) (d : pcie_device_state_t) :=
  {| vendor_id := vendor_id d; device_id := device_id d;
     driver_ctx := driver_ctx d; bar0 := bar0 d; irq_mode := irq_mode d;
     irq_handler_registered := irq_handler_registered d;
     irq_masked := irq_masked d; mmio_enabled := b |}.

(** ** Observable actions

    Every call into the bus framework or the memory manager, and every store
    to a device register, is recorded in program order. *)
Inductive event : Type :=
  | EvSetIrqModeDisabled
  | EvSetIrqMode (mode : pcie_irq_mode_t) (requested : Z) (st : status_t)
  | EvRegisterIrqHandler (irq_id : Z) (st : status_t)
  | EvVmmAllocPhysical (asp sz paddr : Z) (st : status_t) (vaddr : Z)
  | EvEnableMmio (enable : bool)
  | EvUnmaskIrq (irq_id : Z) (st : status_t)
  | EvVmmFreeRegion (asp vaddr : Z)
  | EvWriteTsel (v : Z)
  | EvWriteCtt (v : Z)
  | EvWriteTsc (v : Z).

(** ** The world the driver runs in

    [g_pch_thermal_context] is the global singleton; [mmio] is the device's
    register block (it exists whether mapped or not); [vmm_regions] maps the
    base address of each region the driver has mapped to the address space it
    lives in; [events] is the log of observable actions. *)
Record world : Type := {
  g_pch_thermal_context : pch_thermal_context;
  mmio : pch_thermal_registers;
  vmm_regions : gmap Z Z;
  events : list event
}.

Definition with_ctx (c : pch_thermal_context) (w : world) : world :=
  {| g_pch_thermal_context := c; mmio := mmio w;
     vmm_regions := vmm_regions w; events := events w |}.

Definition with_mmio (r : pch_thermal_registers) (w : world) : world :=
  {| g_pch_thermal_context := g_pch_thermal_context w; mmio := r;
     vmm_regions := vmm_regions w; events := events w |}.

Definition with_regions (m : gmap Z Z) (w : world) : world :=
  {| g_pch_thermal_context := g_pch_thermal_context w; mmio := mmio w;
     vmm_regions := m; events := events w |}.

Definition log (e : event) (w : world) : world :=
  {| g_pch_thermal_context := g_pch_thermal_context w; mmio := mmio w;
     vmm_regions := vmm_regions w; events := events w ++ [e] |}.

(** ** Computations: state passing with fatal faults

    A failed [DEBUG_ASSERT] panics (debug assertions are taken as compiled
    in); a load or store through a pointer that is not the base of a mapped
    region is a page fault. Neither returns. *)
Inductive fault : Type :=
  | AssertFailed
  | PageFault.

Inductive result (A : Type) : Type :=
  | Crash (f : fault)
  | Ok (a : A).
Arguments Crash {A} f.
Arguments Ok {A} a.

Definition M (A : Type) : Type := world -> result (A * world).

#[global] Instance M_ret : MRet M := fun A a w => Ok (a, w).
#[global] Instance M_bind : MBind M := fun A B f m w =>
  match m w with
  | Crash e => Crash e
  | Ok (a, w') => f a w'
  end.

Definition get_ctx : M pch_thermal_context :=
  fun w => Ok (g_pch_thermal_context w, w).
Definition put_ctx (c : pch_thermal_context) : M unit :=
  fun w => Ok (tt, with_ctx c w).
Definition emit (e : event) : M unit :=
  fun w => Ok (tt, log e w).
Definition DEBUG_ASSERT (b : bool) : M unit :=
  fun w => if b then Ok (tt, w) else Crash AssertFailed.

(** ** Vendor and device ids *)

Definition INTEL_VID : Z := 0x8086.
Definition intel_dids : list Z := [0x3a32; 0x9ca4].

(** ** [pch_thermal_probe] *)

(** The [for] loop over [intel_dids]: [claim] becomes true at the first
    matching entry, which also leaves the loop. *)
Fixpoint probe_scan (dids : list Z) (did : Z) : bool :=
  match dids with
  | [] => false
  | d :: rest => if did =? d then true else probe_scan rest did
  end.

Definition pch_thermal_probe (pci_device : pcie_device_state_t) : M void_ptr :=
  c ← get_ctx;
  if device_claimed c then mret null_ptr
  else
    let claim :=
      if vendor_id pci_device =? INTEL_VID
      then probe_scan intel_dids (device_id pci_device)
      else false in
    if negb claim then mret null_ptr
    else
      put_ctx {| aspace := aspace c; regs := regs c; device_claimed := true |};;
      mret addr_g_pch_thermal_context.

(** ** [pch_thermal_irq_handler]

    The handler traces and reports that it took no action; it reads and
    writes nothing. *)
Inductive pcie_irq_handler_retval_t : Type :=
  | PCIE_IRQRET_NO_ACTION.

Definition pch_thermal_irq_handler (dev : pcie_device_state_t) (irq_id : Z)
    (ctx : void_ptr) : M pcie_irq_handler_retval_t :=
  mret PCIE_IRQRET_NO_ACTION.

(** ** Device registers, reached through [g_pch_thermal_context.regs]

    An access is served by the device only while the pointer is the base of a
    mapped region; otherwise it faults. *)

Definition regs_load (field : pch_thermal_registers -> Z) : M Z :=
  fun w =>
    match vmm_regions w !! regs (g_pch_thermal_context w) with
    | Some _ => Ok (field (mmio w), w)
    | None => Crash PageFault
    end.

Definition regs_store (ev : event)
    (upd : pch_thermal_registers -> pch_thermal_registers) : M unit :=
  fun w =>
    match vmm_regions w !! regs (g_pch_thermal_context w) with
    | Some _ => Ok (tt, log ev (with_mmio (upd (mmio w)) w))
    | None => Crash PageFault
    end.

Definition store_tsel (v : Z) : M unit :=
  regs_store (EvWriteTsel v) (fun r => {| tsel := v; ctt := ctt r; tsc := tsc r |}).
Definition store_ctt (v : Z) : M unit :=
  regs_store (EvWriteCtt v) (fun r => {| tsel := tsel r; ctt := v; tsc := tsc r |}).
Definition store_tsc (v : Z) : M unit :=
  regs_store (EvWriteTsc v) (fun r => {| tsel := tsel r; ctt := ctt r; tsc := v |}).

(** ** The bus framework and the memory manager, as the driver sees them

    The outcome of each call that can fail is fixed by a [platform]; so are the
    kernel address space, the page size and the widths of [paddr_t] and
    [size_t]. *)
Record platform : Type := {
  kernel_aspace : Z;
  set_irq_mode_status : status_t;
  register_irq_handler_status : status_t;
  alloc_physical_result : status_t * Z;   (* status, and the address mapped *)
  unmask_irq_status : status_t;
  PAGE_SIZE : Z;
  paddr_max : Z;                          (* numeric_limits<paddr_t>::max() *)
  size_max : Z                            (* numeric_limits<size_t>::max() *)
}.

Definition pcie_set_irq_mode_disabled (d : pcie_device_state_t)
    : M pcie_device_state_t :=
  emit EvSetIrqModeDisabled;;
  mret (with_irq_mode PCIE_IRQ_MODE_DISABLED d).

Definition pcie_set_irq_mode (P : platform) (d : pcie_device_state_t)
    (mode : pcie_irq_mode_t) (requested : Z) : M (status_t * pcie_device_state_t) :=
  let st := set_irq_mode_status P in
  emit (EvSetIrqMode mode requested st);;
  mret (st, if decide (st = NO_ERROR) then with_irq_mode mode d else d).

Definition pcie_register_irq_handler (P : platform) (d : pcie_device_state_t)
    (irq_id : Z) : M (status_t * pcie_device_state_t) :=
  let st := register_irq_handler_status P in
  emit (EvRegisterIrqHandler irq_id st);;
  mret (st, if decide (st = NO_ERROR) then with_irq_handler true d else d).

Definition pcie_enable_mmio (d : pcie_device_state_t) (enable : bool)
    : M pcie_device_state_t :=
  emit (EvEnableMmio enable);;
  mret (with_mmio_enabled enable d).

Definition pcie_unmask_irq (P : platform) (d : pcie_device_state_t)
    (irq_id : Z) : M (status_t * pcie_device_state_t) :=
  let st := unmask_irq_status P in
  emit (EvUnmaskIrq irq_id st);;
  mret (st, if decide (st = NO_ERROR) then with_irq_masked false d else d).

(** [vmm_alloc_physical]: on success the region is mapped into [asp] and its
    base is written through the [vaddr] out-parameter; on failure [vaddr]
    keeps the value it had. *)
Definition vmm_alloc_physical (P : platform) (asp sz : Z) (vaddr : Z) (paddr : Z)
    : M (status_t * Z) :=
  fun w =>
    let '(st, v) := alloc_physical_result P in
    if decide (st = NO_ERROR)
    then Ok ((st, v),
             log (EvVmmAllocPhysical asp sz paddr st v)
                 (with_regions (<[v := asp]> (vmm_regions w)) w))
    else Ok ((st, vaddr), log (EvVmmAllocPhysical asp sz paddr st vaddr) w).

(** [vmm_free_region]: the region based at [vaddr] in [asp] is unmapped; the
    driver ignores the status. *)
Definition vmm_free_region (asp vaddr : Z) : M unit :=
  fun w =>
    let w' := log (EvVmmFreeRegion asp vaddr) w in
    match vmm_regions w !! vaddr with
    | Some a =>
        if decide (a = asp)
        then Ok (tt, with_regions (delete vaddr (vmm_regions w)) w')
        else Ok (tt, w')
    | None => Ok (tt, w')
    end.

(** Modelled from the spec: the [ROUNDUP] macro, which is not in this file
    ("round the region size up to the platform page granularity"), on 64-bit
    unsigned operands with a power-of-two granularity. *)
Definition ROUNDUP (a b : Z) : Z :=
  Z.land (uint64 (a + (b - 1))) (uint64 (Z.lnot (b - 1))).

(** ** [pch_thermal_cleanup]

    [ctx] is always the address of the global, which the world carries; a
    [RefPtr] is the device it points to, or [None] when it is null. The
    device as the framework call leaves it is handed back. *)

Definition pch_thermal_cleanup (pci_device : option pcie_device_state_t)
    : M (option pcie_device_state_t) :=
  pci_device ←
    match pci_device with
    | Some d => d' ← pcie_set_irq_mode_disabled d; mret (Some d')
    | None => mret None
    end;
  ctx ← get_ctx;
  (if decide (regs ctx ≠ NULL) then
     (* Disable thermal sensor *)
     t ← regs_load tsel;
     store_tsel (uint8 (Z.land t (uint32 (Z.lnot 1))));;
     (* Unmap our registers *)
     vmm_free_region (aspace ctx) (regs ctx)
   else mret tt);;
  ctx ← get_ctx;
  put_ctx {| aspace := NULL; regs := regs ctx; device_claimed := device_claimed ctx |};;
  ctx ← get_ctx;
  put_ctx {| aspace := aspace ctx; regs := NULL; device_claimed := device_claimed ctx |};;
  mret pci_device.

(** ** [pch_thermal_startup] *)

Section Startup.

(** [decode_temp] and [encode_temp] are defined in [pch_thermal.h], which is
    not part of the sources at hand: startup is parametric in them. *)
Variables decode_temp encode_temp : Z -> Z.

Variable P : platform.

(** The value startup keeps in [int16_t current_ctt] for a stored [ctt]. *)
Definition current_ctt_of (stored : Z) : Z :=
  int16 (decode_temp (Z.land stored 0x1ff)).

(** Lines 133-140: set the catastrophic trip threshold. *)
Definition set_catastrophic_trip_threshold : M unit :=
  c ← regs_load ctt;
  let current_ctt := current_ctt_of c in
  if 113 <=? current_ctt
  then store_ctt (uint16 (encode_temp 113))
  else mret tt.

(** Lines 75-128: from the entry assertions to the store of the mapped
    pointer into [g_pch_thermal_context.regs]. A status other than
    [NO_ERROR] is a [goto finished]. *)
Definition startup_acquire (pci_device : pcie_device_state_t)
    : M (status_t * pcie_device_state_t) :=
  ctx ← get_ctx;
  DEBUG_ASSERT (bool_decide (regs ctx = NULL));;
  DEBUG_ASSERT (bool_decide (addr_g_pch_thermal_context = driver_ctx pci_device));;
  put_ctx {| aspace := kernel_aspace P; regs := regs ctx;
             device_claimed := device_claimed ctx |};;
  (* bar_info = pcie_get_bar_info of BAR 0, then
     DEBUG_ASSERT(bar_info && bar_info->bus_addr) *)
  match bar0 pci_device with
  | None => DEBUG_ASSERT false;; mret (NO_ERROR, pci_device)  (* never returns *)
  | Some bar_info =>
    DEBUG_ASSERT (negb (bus_addr bar_info =? 0));;
    (* Select legacy IRQ mode *)
    '(status, pci_device) ← pcie_set_irq_mode P pci_device PCIE_IRQ_MODE_LEGACY 1;
    if decide (status ≠ NO_ERROR) then mret (status, pci_device) else
    (* Register our IRQ handler *)
    '(status, pci_device) ← pcie_register_irq_handler P pci_device 0;
    if decide (status ≠ NO_ERROR) then mret (status, pci_device) else
    let size := ROUNDUP (bar_size bar_info) (PAGE_SIZE P) in
    let vaddr := NULL in
    if (paddr_max P <? bus_addr bar_info) || (size_max P <? size)
    then mret (ERR_INVALID_ARGS, pci_device) else
    ctx ← get_ctx;
    '(status, vaddr) ← vmm_alloc_physical P (aspace ctx) size vaddr (bus_addr bar_info);
    if decide (status ≠ NO_ERROR) then mret (status, pci_device) else
    DEBUG_ASSERT (negb (vaddr =? NULL));;
    pci_device ← pcie_enable_mmio pci_device true;
    ctx ← get_ctx;
    put_ctx {| aspace := aspace ctx; regs := vaddr;
               device_claimed := device_claimed ctx |};;
    mret (NO_ERROR, pci_device)
  end.

(** Lines 130-150: sensor enable, threshold, power-off on trip, IRQ unmask. *)
Definition startup_configure (pci_device : pcie_device_state_t)
    : M (status_t * pcie_device_state_t) :=
  (* Enable thermal sensor *)
  t ← regs_load tsel;
  store_tsel (uint8 (Z.lor t 1));;
  (* Set the catastrophic trip threshold *)
  set_catastrophic_trip_threshold;;
  (* Enable poweroff on catastrophic threshold trip *)
  t ← regs_load tsc;
  store_tsc (uint8 (Z.lor t 1));;
  (* Enable our interrupt *)
  pcie_unmask_irq P pci_device 0.

(** Everything above the [finished:] label. *)
Definition startup_body (pci_device : pcie_device_state_t)
    : M (status_t * pcie_device_state_t) :=
  '(status, pci_device) ← startup_acquire pci_device;
  if decide (status ≠ NO_ERROR) then mret (status, pci_device)
  else startup_configure pci_device.

(** The [finished:] label. *)
Definition finished (status : status_t) (pci_device : pcie_device_state_t)
    : M (status_t * pcie_device_state_t) :=
  if decide (status ≠ NO_ERROR)
  then d ← pch_thermal_cleanup (Some pci_device);
       mret (status, default pci_device d)
  else mret (status, pci_device).

Definition pch_thermal_startup (pci_device : pcie_device_state_t)
    : M (status_t * pcie_device_state_t) :=
  '(status, pci_device) ← startup_body pci_device;
  finished status pci_device.

End Startup.

(** ** [pch_thermal_shutdown] and [pch_thermal_release] *)

Definition pch_thermal_shutdown (pci_device : pcie_device_state_t)
    : M pcie_device_state_t :=
  DEBUG_ASSERT (bool_decide (addr_g_pch_thermal_context = driver_ctx pci_device));;
  d ← pch_thermal_cleanup (Some pci_device);
  mret (default pci_device d).

Definition pch_thermal_release (ctx : void_ptr) : M unit :=
  DEBUG_ASSERT (bool_decide (addr_g_pch_thermal_context = ctx));;
  c ← get_ctx;
  DEBUG_ASSERT (bool_decide (regs c = NULL));;
  c ← get_ctx;
  put_ctx {| aspace := aspace c; regs := regs c; device_claimed := false |}.

(** ** What probe decides on *)

(** The identity pairs the driver supports. *)
Definition supported (d : pcie_device_state_t) : Prop :=
  vendor_id d = INTEL_VID ∧ device_id d ∈ intel_dids.

(** The world after a granted claim: [device_claimed] is set, all else is as
    before. *)
Definition grant (w : world) : world :=
  with_ctx {| aspace := aspace (g_pch_thermal_context w);
              regs := regs (g_pch_thermal_context w);
              device_claimed := true |} w.

(** ** What teardown leaves behind *)

(** The context after teardown: both pointers null, the claim as it was. *)
Definition torn_down (c : pch_thermal_context) : pch_thermal_context :=
  {| aspace := NULL; regs := NULL; device_claimed := device_claimed c |}.

(** The bus-level action of teardown: present when the device handle is valid. *)
Definition irq_disable_events (pci_device : option pcie_device_state_t) : list event :=
  match pci_device with
  | Some _ => [EvSetIrqModeDisabled]
  | None => []
  end.

(** The value teardown stores to [tsel]. *)
Definition tsel_disabled (t : Z) : Z := uint8 (Z.land t (uint32 (Z.lnot 1))).

(** The register-level actions of teardown, for the context it starts from. *)
Definition quiesce_events (c : pch_thermal_context) (r : pch_thermal_registers)
    : list event :=
  if decide (regs c ≠ NULL)
  then [EvWriteTsel (tsel_disabled (tsel r)); EvVmmFreeRegion (aspace c) (regs c)]
  else [].

(** ** The status startup reports

    The failing steps in program order, as the spec lists them: IRQ-mode
    configuration, IRQ-handler registration, address-range validation,
    mapping, IRQ unmask. The first one that fails decides the status. *)

Definition range_rejected (P : platform) (b : pcie_bar_info_t) : bool :=
  (paddr_max P <? bus_addr b) || (size_max P <? ROUNDUP (bar_size b) (PAGE_SIZE P)).

Definition acquire_status (P : platform) (b : pcie_bar_info_t) : status_t :=
  if decide (set_irq_mode_status P ≠ NO_ERROR) then set_irq_mode_status P
  else if decide (register_irq_handler_status P ≠ NO_ERROR)
       then register_irq_handler_status P
  else if range_rejected P b then ERR_INVALID_ARGS
  else fst (alloc_physical_result P).

Definition startup_status (P : platform) (b : pcie_bar_info_t) : status_t :=
  if decide (acquire_status P b ≠ NO_ERROR) then acquire_status P b
  else unmask_irq_status P.

(** What startup asserts on entry. *)
Definition startup_entry_ok (d : pcie_device_state_t) (w : world)
    (b : pcie_bar_info_t) : Prop :=
  regs (g_pch_thermal_context w) = NULL
  ∧ driver_ctx d = addr_g_pch_thermal_context
  ∧ bar0 d = Some b
  ∧ bus_addr b ≠ 0.

(** ** Initial state and entry points *)

(** The zero-initialised global the driver starts with. *)
Definition initial_context : pch_thermal_context :=
  {| aspace := NULL; regs := NULL; device_claimed := false |}.

(** One call of a driver entry point, results dropped: what is left is its
    effect on the world. *)
Inductive entry_point : Type :=
  | CallProbe (d : pcie_device_state_t)
  | CallStartup (P : platform) (d : pcie_device_state_t)
  | CallShutdown (d : pcie_device_state_t)
  | CallRelease (ctx : void_ptr).

Definition run_entry (decode_temp encode_temp : Z -> Z) (e : entry_point) : M unit :=
  match e with
  | CallProbe d => pch_thermal_probe d;; mret tt
  | CallStartup P d => pch_thermal_startup decode_temp encode_temp P d;; mret tt
  | CallShutdown d => pch_thermal_shutdown d;; mret tt
  | CallRelease ctx => pch_thermal_release ctx
  end.

(** ** Invariant I1 *)

(** The register window is mapped: [registers] is the base of a region of
    [address_space]. *)
Definition window_mapped (w : world) : Prop :=
  vmm_regions w !! regs (g_pch_thermal_context w)
  = Some (aspace (g_pch_thermal_context w)).

(** The sensor is configured: the sensor-enable bit (bit 0 of [tsel]) is set. *)
Definition sensor_enabled (w : world) : Prop :=
  Z.testbit (tsel (mmio w)) 0 = true.

(** A register window is mapped: the memory manager holds a region for the
    driver, wherever [registers] points. *)
Definition register_window_mapped (w : world) : Prop :=
  ∃ v, is_Some (vmm_regions w !! v).

Definition I1 (w : world) : Prop :=
  regs (g_pch_thermal_context w) ≠ NULL
  ↔ register_window_mapped w ∧ sensor_enabled w.

(** [registers], when set, is the base of the mapped window. *)
Definition registers_at_window (w : world) : Prop :=
  regs (g_pch_thermal_context w) ≠ NULL -> window_mapped w.

(** ** Threshold codec *)

Module ThresholdCodec.

(** Modelled from the spec: [decode_temp] and [encode_temp] of
    [pch_thermal.h], which is not part of the sources at hand. The spec
    describes "a fixed-point scheme" with a "scale/offset" fixed by the
    device family, decoding a 9-bit unsigned raw value to signed degrees:
    a raw value counts steps of [1/scale] degree above [-offset] degrees. *)
Definition decode_temp (scale offset : Z) (raw : Z) : Z := raw / scale - offset.
Definition encode_temp (scale offset : Z) (degrees : Z) : Z := (degrees + offset) * scale.


End ThresholdCodec.

(** ** Sequences of entry-point calls *)

Fixpoint run_entries (decode_temp encode_temp : Z -> Z) (es : list entry_point)
    : M unit :=
  match es with
  | [] => mret tt
  | e :: rest =>
      run_entry decode_temp encode_temp e;;
      run_entries decode_temp encode_temp rest
  end.

Definition is_probe (e : entry_point) : bool :=
  match e with CallProbe _ => true | _ => false end.

Definition is_release (e : entry_point) : bool :=
  match e with CallRelease _ => true | _ => false end.

(** ** What a successful startup leaves behind *)

(** The device after the framework calls of lines 88-126, and after the
    unmask of line 146. *)
Definition acquired_device (d : pcie_device_state_t) : pcie_device_state_t :=
  with_mmio_enabled true
    (with_irq_handler true (with_irq_mode PCIE_IRQ_MODE_LEGACY d)).

Definition started_device (d : pcie_device_state_t) : pcie_device_state_t :=
  with_irq_masked false (acquired_device d).

(** The register block after lines 131-143. *)
Definition started_registers (decode_temp encode_temp : Z -> Z)
    (r : pch_thermal_registers) : pch_thermal_registers :=
  {| tsel := uint8 (Z.lor (tsel r) 1);
     ctt := if 113 <=? current_ctt_of decode_temp (ctt r)
            then uint16 (encode_temp 113) else ctt r;
     tsc := uint8 (Z.lor (tsc r) 1) |}.

(** The actions of lines 88-126 when each of them succeeds, and those of
    lines 131-146 given the status [st] of the unmask. *)
Definition acquire_events (P : platform) (b : pcie_bar_info_t) : list event :=
  [EvSetIrqMode PCIE_IRQ_MODE_LEGACY 1 NO_ERROR;
   EvRegisterIrqHandler 0 NO_ERROR;
   EvVmmAllocPhysical (kernel_aspace P) (ROUNDUP (bar_size b) (PAGE_SIZE P))
     (bus_addr b) NO_ERROR (snd (alloc_physical_result P));
   EvEnableMmio true].

Definition configure_events (decode_temp encode_temp : Z -> Z)
    (r : pch_thermal_registers) (st : status_t) : list event :=
  [EvWriteTsel (uint8 (Z.lor (tsel r) 1))]
  ++ (if 113 <=? current_ctt_of decode_temp (ctt r)
      then [EvWriteCtt (uint16 (encode_temp 113))] else [])
  ++ [EvWriteTsc (uint8 (Z.lor (tsc r) 1)); EvUnmaskIrq 0 st].

(** ** Validity of the register pointer *)

(** [registers], when set, is the base of a mapped region. *)
Definition registers_valid (w : world) : Prop :=
  regs (g_pch_thermal_context w) ≠ NULL ->
  is_Some (vmm_regions w !! regs (g_pch_thermal_context w)).

(** ** Concrete data used to exercise the statements below *)

Definition example_platform : platform :=
  {| kernel_aspace := 0xffff0000;
     set_irq_mode_status := NO_ERROR;
     register_irq_handler_status := NO_ERROR;
     alloc_physical_result := (NO_ERROR, 0xc0200000);
     unmask_irq_status := NO_ERROR;
     PAGE_SIZE := 4096;
     paddr_max := 2 ^ 64 - 1;
     size_max := 2 ^ 64 - 1 |}.

(** The same platform with a memory manager that refuses the mapping. *)
Definition example_platform_no_mapping : platform :=
  {| kernel_aspace := 0xffff0000;
     set_irq_mode_status := NO_ERROR;
     register_irq_handler_status := NO_ERROR;
     alloc_physical_result := (ERR_OTHER (-4), 0);
     unmask_irq_status := NO_ERROR;
     PAGE_SIZE := 4096;
     paddr_max := 2 ^ 64 - 1;
     size_max := 2 ^ 64 - 1 |}.

(** The same platform with a bus framework that refuses to unmask IRQ 0. *)
Definition example_platform_no_unmask : platform :=
  {| kernel_aspace := 0xffff0000;
     set_irq_mode_status := NO_ERROR;
     register_irq_handler_status := NO_ERROR;
     alloc_physical_result := (NO_ERROR, 0xc0200000);
     unmask_irq_status := ERR_OTHER (-2);
     PAGE_SIZE := 4096;
     paddr_max := 2 ^ 64 - 1;
     size_max := 2 ^ 64 - 1 |}.

(** The same platform with a memory manager that reports success and hands
    back the null address. *)
Definition example_platform_null_mapping : platform :=
  {| kernel_aspace := 0xffff0000;
     set_irq_mode_status := NO_ERROR;
     register_irq_handler_status := NO_ERROR;
     alloc_physical_result := (NO_ERROR, NULL);
     unmask_irq_status := NO_ERROR;
     PAGE_SIZE := 4096;
     paddr_max := 2 ^ 64 - 1;
     size_max := 2 ^ 64 - 1 |}.

(** The same platform with physical addresses of 20 bits only. *)
Definition example_platform_narrow : platform :=
  {| kernel_aspace := 0xffff0000;
     set_irq_mode_status := NO_ERROR;
     register_irq_handler_status := NO_ERROR;
     alloc_physical_result := (NO_ERROR, 0xc0200000);
     unmask_irq_status := NO_ERROR;
     PAGE_SIZE := 4096;
     paddr_max := 2 ^ 20 - 1;
     size_max := 2 ^ 64 - 1 |}.

Definition example_device : pcie_device_state_t :=
  {| vendor_id := 0x8086; device_id := 0x9ca4; driver_ctx := null_ptr;
     bar0 := Some {| bus_addr := 0xfe100000; bar_size := 0x1000 |};
     irq_mode := PCIE_IRQ_MODE_DISABLED; irq_handler_registered := false;
     irq_masked := true; mmio_enabled := false |}.

(** The device once the bus framework has bound it to the driver: startup and
    shutdown assert that [driver_ctx] is the handle probe returned. *)
Definition example_bound_device : pcie_device_state_t :=
  with_driver_ctx addr_g_pch_thermal_context example_device.

(** A bound device whose first base-address register has size zero. *)
Definition example_device_empty_bar : pcie_device_state_t :=
  {| vendor_id := 0x8086; device_id := 0x9ca4;
     driver_ctx := addr_g_pch_thermal_context;
     bar0 := Some {| bus_addr := 0xfe100000; bar_size := 0 |};
     irq_mode := PCIE_IRQ_MODE_DISABLED; irq_handler_registered := false;
     irq_masked := true; mmio_enabled := false |}.

(** The same device without a first base-address register. *)
Definition example_device_no_bar : pcie_device_state_t :=
  {| vendor_id := 0x8086; device_id := 0x9ca4;
     driver_ctx := addr_g_pch_thermal_context;
     bar0 := None;
     irq_mode := PCIE_IRQ_MODE_DISABLED; irq_handler_registered := false;
     irq_masked := true; mmio_enabled := false |}.

(** Half-degree steps above -50 degrees. *)
Definition example_decode : Z -> Z := ThresholdCodec.decode_temp 2 50.
Definition example_encode : Z -> Z := ThresholdCodec.encode_temp 2 50.

(** A freshly booted machine whose stored threshold is 120 degrees. *)
Definition example_world : world :=
  {| g_pch_thermal_context := initial_context;
     mmio := {| tsel := 0; ctt := 340; tsc := 0 |};
     vmm_regions := ∅;
     events := [] |}.

(** A machine with the registers mapped at [0xc0200000], the sensor enabled
    and a stored threshold of [stored]. *)
Definition mapped_world (stored : Z) : world :=
  {| g_pch_thermal_context :=
       {| aspace := 0xffff0000; regs := 0xc0200000; device_claimed := true |};
     mmio := {| tsel := 1; ctt := stored; tsc := 0 |};
     vmm_regions := {[ 0xc0200000 := 0xffff0000 ]};
     events := [] |}.

(** A machine with the registers mapped and other bits of [tsel] and [tsc]
    in use. *)
Definition example_busy_world : world :=
  {| g_pch_thermal_context :=
       {| aspace := 0xffff0000; regs := 0xc0200000; device_claimed := true |};
     mmio := {| tsel := 0xa3; ctt := 326; tsc := 0x81 |};
     vmm_regions := {[ 0xc0200000 := 0xffff0000 ]};
     events := [] |}.

(** * Properties *)

(** ** Running computations *)

Ltac run :=
  repeat progress
    (unfold mbind, M_bind, mret, M_ret, get_ctx, put_ctx, emit, DEBUG_ASSERT;
     cbn beta iota).

(** Unfolding the record updates of a world. *)
Ltac world_simpl :=
  unfold with_ctx, with_mmio, with_regions, log;
  cbn [g_pch_thermal_context mmio vmm_regions events aspace regs device_claimed
       tsel ctt tsc].

(** ** Probe *)

Lemma probe_scan_elem_of (dids : list Z) (did : Z) :
  probe_scan dids did = true ↔ did ∈ dids.
Proof.
  induction dids as [|d rest IH]; simpl.
  - split; [discriminate | intros H; inversion H].
  - destruct (Z.eqb_spec did d) as [->|Hne].
    + split; [intros _; left | reflexivity].
    + rewrite IH. split; [intros H; now right|].
      intros H. inversion H; subst; [congruence | assumption].
Qed.

Lemma probe_claimed (d : pcie_device_state_t) (w : world) :
  device_claimed (g_pch_thermal_context w) = true ->
  pch_thermal_probe d w = Ok (null_ptr, w).
Proof. intros H. unfold pch_thermal_probe. run. now rewrite H. Qed.

Lemma probe_unclaimed (d : pcie_device_state_t) (w : world) :
  device_claimed (g_pch_thermal_context w) = false ->
  pch_thermal_probe d w =
    if (vendor_id d =? INTEL_VID) && probe_scan intel_dids (device_id d)
    then Ok (addr_g_pch_thermal_context, grant w)
    else Ok (null_ptr, w).
Proof.
  intros H. unfold pch_thermal_probe. run. rewrite H.
  destruct (vendor_id d =? INTEL_VID); cbn [andb negb]; [|reflexivity].
  destruct (probe_scan intel_dids (device_id d)); cbn [negb]; run; reflexivity.
Qed.

Lemma supported_scan (d : pcie_device_state_t) :
  (vendor_id d =? INTEL_VID) && probe_scan intel_dids (device_id d) = true
  ↔ supported d.
Proof.
  unfold supported. rewrite andb_true_iff, Z.eqb_eq, probe_scan_elem_of.
  reflexivity.
Qed.

(** C3. Probe grants the claim (returning the handle and setting
    [device_claimed]) when the singleton is unclaimed and the device is a
    supported one; in every other case it returns null and leaves the whole
    world as it was. *)
Theorem probe_postcondition (d : pcie_device_state_t) (w : world) :
  (device_claimed (g_pch_thermal_context w) = false ∧ supported d →
     pch_thermal_probe d w = Ok (addr_g_pch_thermal_context, grant w)
     ∧ device_claimed (g_pch_thermal_context (grant w)) = true)
  ∧ (¬ (device_claimed (g_pch_thermal_context w) = false ∧ supported d) →
     pch_thermal_probe d w = Ok (null_ptr, w)).
Proof.
  split.
  - intros [Hc Hs]. split; [|reflexivity].
    rewrite (probe_unclaimed _ _ Hc).
    apply supported_scan in Hs. now rewrite Hs.
  - intros Hn.
    destruct (device_claimed (g_pch_thermal_context w)) eqn:Hc.
    + now apply probe_claimed.
    + rewrite (probe_unclaimed _ _ Hc).
      destruct (_ && _) eqn:Hs; [|reflexivity].
      exfalso. apply Hn. split; [reflexivity|]. now apply supported_scan.
Qed.

Lemma probe_postcondition_witness :
  pch_thermal_probe example_device example_world
    = Ok (addr_g_pch_thermal_context, grant example_world)
  ∧ pch_thermal_probe example_device (grant example_world)
    = Ok (null_ptr, grant example_world).
Proof.
  split.
  - apply (proj1 (probe_postcondition example_device example_world)).
    split; [reflexivity|]. apply supported_scan. reflexivity.
  - apply (proj2 (probe_postcondition example_device (grant example_world))).
    intros [Hc _]. discriminate Hc.
Defined.

(** C10. The allow-list is the two device ids 0x3a32 and 0x9ca4 under vendor
    0x8086: on an unclaimed singleton a device of that vendor is granted the
    claim exactly when its id is one of the two, 0x9ca4 in particular; and
    whatever probe returns is null or the address of the one global
    context. *)
Theorem probe_allow_list (d : pcie_device_state_t) (w : world) :
  (supported d ↔
     vendor_id d = 0x8086 ∧ (device_id d = 0x3a32 ∨ device_id d = 0x9ca4))
  ∧ (device_claimed (g_pch_thermal_context w) = false →
     vendor_id d = 0x8086 →
     (pch_thermal_probe d w = Ok (addr_g_pch_thermal_context, grant w)
      ↔ device_id d = 0x3a32 ∨ device_id d = 0x9ca4))
  ∧ (device_claimed (g_pch_thermal_context w) = false →
     vendor_id d = 0x8086 → device_id d = 0x9ca4 →
     pch_thermal_probe d w = Ok (addr_g_pch_thermal_context, grant w))
  ∧ (∀ p w', pch_thermal_probe d w = Ok (p, w') →
     p = null_ptr ∨ p = addr_g_pch_thermal_context).
Proof.
  assert (Hsup : supported d ↔
     vendor_id d = 0x8086 ∧ (device_id d = 0x3a32 ∨ device_id d = 0x9ca4)).
  { unfold supported, intel_dids, INTEL_VID.
    rewrite !elem_of_cons, elem_of_nil. tauto. }
  assert (Hgr : device_claimed (g_pch_thermal_context w) = false →
     vendor_id d = 0x8086 →
     (pch_thermal_probe d w = Ok (addr_g_pch_thermal_context, grant w)
      ↔ device_id d = 0x3a32 ∨ device_id d = 0x9ca4)).
  { intros Hc Hv. rewrite (probe_unclaimed _ _ Hc).
    destruct (_ && _) eqn:Hs.
    - apply supported_scan, Hsup in Hs. tauto.
    - split; [discriminate|]. intros Hd. exfalso.
      assert (Ht : (vendor_id d =? INTEL_VID)
                   && probe_scan intel_dids (device_id d) = true)
        by (apply supported_scan, Hsup; tauto).
      congruence. }
  split; [exact Hsup|]. split; [exact Hgr|]. split.
  - intros Hc Hv Hd. apply Hgr; auto.
  - intros p w' Hp.
    destruct (device_claimed (g_pch_thermal_context w)) eqn:Hc.
    + rewrite (probe_claimed _ _ Hc) in Hp. left. congruence.
    + rewrite (probe_unclaimed _ _ Hc) in Hp.
      destruct (_ && _); [right | left]; congruence.
Qed.

Lemma probe_allow_list_witness :
  pch_thermal_probe example_device example_world
    = Ok (addr_g_pch_thermal_context, grant example_world).
Proof.
  apply (proj1 (proj2 (proj2 (probe_allow_list example_device example_world))));
    reflexivity.
Defined.

(** ** Teardown *)

Lemma tsel_disabled_bit0 (t : Z) : Z.testbit (tsel_disabled t) 0 = false.
Proof.
  unfold tsel_disabled, uint8.
  rewrite Z.mod_pow2_bits_low by lia.
  rewrite Z.land_spec. replace (Z.testbit (uint32 (Z.lnot 1)) 0) with false
    by reflexivity.
  apply andb_false_r.
Qed.

Lemma cleanup_regs_absent (d : option pcie_device_state_t) (w : world) :
  regs (g_pch_thermal_context w) = NULL ->
  pch_thermal_cleanup d w =
    Ok (with_irq_mode PCIE_IRQ_MODE_DISABLED <$> d,
        {| g_pch_thermal_context := torn_down (g_pch_thermal_context w);
           mmio := mmio w;
           vmm_regions := vmm_regions w;
           events := events w ++ irq_disable_events d |}).
Proof.
  intros H. unfold pch_thermal_cleanup, pcie_set_irq_mode_disabled.
  destruct d as [d|]; run; cbn.
  - rewrite decide_False by (rewrite H; auto). run. reflexivity.
  - rewrite decide_False by (rewrite H; auto). run. cbn.
    rewrite app_nil_r. reflexivity.
Qed.

Lemma cleanup_regs_unmapped (d : option pcie_device_state_t) (w : world) :
  regs (g_pch_thermal_context w) ≠ NULL ->
  vmm_regions w !! regs (g_pch_thermal_context w) = None ->
  pch_thermal_cleanup d w = Crash PageFault.
Proof.
  intros H Hm. unfold pch_thermal_cleanup, pcie_set_irq_mode_disabled, regs_load.
  destruct d as [d|]; run; cbn; rewrite decide_True by assumption; run; cbn;
    now rewrite Hm.
Qed.

Lemma cleanup_regs_mapped (d : option pcie_device_state_t) (w : world) (a : Z) :
  regs (g_pch_thermal_context w) ≠ NULL ->
  vmm_regions w !! regs (g_pch_thermal_context w) = Some a ->
  pch_thermal_cleanup d w =
    Ok (with_irq_mode PCIE_IRQ_MODE_DISABLED <$> d,
        {| g_pch_thermal_context := torn_down (g_pch_thermal_context w);
           mmio := {| tsel := tsel_disabled (tsel (mmio w));
                      ctt := ctt (mmio w); tsc := tsc (mmio w) |};
           vmm_regions :=
             if decide (a = aspace (g_pch_thermal_context w))
             then delete (regs (g_pch_thermal_context w)) (vmm_regions w)
             else vmm_regions w;
           events := events w ++ irq_disable_events d
                       ++ quiesce_events (g_pch_thermal_context w) (mmio w) |}).
Proof.
  intros H Hm.
  unfold pch_thermal_cleanup, pcie_set_irq_mode_disabled, regs_load, store_tsel,
    regs_store, vmm_free_region.
  destruct d as [d|]; run; cbn; rewrite !decide_True by assumption; run; cbn;
    repeat (rewrite Hm; cbn);
    destruct (decide (a = aspace (g_pch_thermal_context w))); cbn;
    unfold quiesce_events; rewrite decide_True by assumption;
    world_simpl; rewrite <- ?app_assoc; reflexivity.
Qed.

Lemma cleanup_returns (d d' : option pcie_device_state_t) (w w' : world) :
  pch_thermal_cleanup d w = Ok (d', w') ->
  d' = (with_irq_mode PCIE_IRQ_MODE_DISABLED <$> d)
  ∧ g_pch_thermal_context w' = torn_down (g_pch_thermal_context w)
  ∧ events w' = events w ++ irq_disable_events d
                  ++ quiesce_events (g_pch_thermal_context w) (mmio w)
  ∧ (regs (g_pch_thermal_context w) = NULL ->
     mmio w' = mmio w ∧ vmm_regions w' = vmm_regions w)
  ∧ (regs (g_pch_thermal_context w) ≠ NULL ->
     is_Some (vmm_regions w !! regs (g_pch_thermal_context w))
     ∧ tsel (mmio w') = tsel_disabled (tsel (mmio w))
     ∧ ctt (mmio w') = ctt (mmio w) ∧ tsc (mmio w') = tsc (mmio w)
     ∧ vmm_regions w' !! regs (g_pch_thermal_context w)
       ≠ Some (aspace (g_pch_thermal_context w))
     ∧ ∀ v, vmm_regions w !! v = None -> vmm_regions w' !! v = None).
Proof.
  intros Hrun.
  destruct (decide (regs (g_pch_thermal_context w) = NULL)) as [Hz|Hnz].
  - rewrite (cleanup_regs_absent _ _ Hz) in Hrun. inversion Hrun; subst; clear Hrun.
    cbn. unfold quiesce_events. rewrite decide_False by auto.
    rewrite app_nil_r. repeat split; auto; contradiction.
  - destruct (vmm_regions w !! regs (g_pch_thermal_context w)) as [a|] eqn:Hm.
    + rewrite (cleanup_regs_mapped _ _ a Hnz Hm) in Hrun.
      inversion Hrun; subst; clear Hrun. cbn.
      repeat split; auto; try contradiction; try (eexists; reflexivity).
      * destruct (decide (a = aspace (g_pch_thermal_context w))) as [->|Hne].
        -- now rewrite lookup_delete_eq.
        -- rewrite Hm. congruence.
      * intros v Hv. destruct (decide _); [|assumption].
        destruct (decide (regs (g_pch_thermal_context w) = v)) as [->|Hv'].
        -- apply lookup_delete_eq.
        -- now rewrite lookup_delete_ne.
    + now rewrite (cleanup_regs_unmapped _ _ Hnz Hm) in Hrun.
Qed.

(** C5. Teardown looks at [registers] before it touches the register block or
    the mapping: when [registers] is null it returns without a fault, with the
    device registers and the mappings as they were, and nothing but the
    bus-level interrupt disable among its actions. Hence a second teardown,
    run on the world a first one returned, changes neither the singleton nor
    the device registers nor the mappings. *)
Theorem teardown_idempotent (d : option pcie_device_state_t) (w : world) :
  (regs (g_pch_thermal_context w) = NULL ->
   ∃ w', pch_thermal_cleanup d w
           = Ok (with_irq_mode PCIE_IRQ_MODE_DISABLED <$> d, w')
         ∧ g_pch_thermal_context w' = torn_down (g_pch_thermal_context w)
         ∧ mmio w' = mmio w
         ∧ vmm_regions w' = vmm_regions w
         ∧ events w' = events w ++ irq_disable_events d)
  ∧ (∀ d0 d0' w0, pch_thermal_cleanup d0 w0 = Ok (d0', w) ->
     ∃ w', pch_thermal_cleanup d w
             = Ok (with_irq_mode PCIE_IRQ_MODE_DISABLED <$> d, w')
           ∧ g_pch_thermal_context w' = g_pch_thermal_context w
           ∧ mmio w' = mmio w
           ∧ vmm_regions w' = vmm_regions w
           ∧ events w' = events w ++ irq_disable_events d).
Proof.
  split.
  - intros Hz. rewrite (cleanup_regs_absent _ _ Hz). eexists. split; [reflexivity|].
    cbn. auto.
  - intros d0 d0' w0 Hfirst.
    apply cleanup_returns in Hfirst as (_ & Hctx & _).
    assert (Hz : regs (g_pch_thermal_context w) = NULL) by now rewrite Hctx.
    rewrite (cleanup_regs_absent _ _ Hz). eexists. split; [reflexivity|].
    cbn. rewrite Hctx. auto.
Qed.

Lemma teardown_idempotent_witness :
  ∃ w1 w2,
    pch_thermal_cleanup (Some example_device) (mapped_world 340)
      = Ok (Some (with_irq_mode PCIE_IRQ_MODE_DISABLED example_device), w1)
    ∧ pch_thermal_cleanup None w1 = Ok (None, w2)
    ∧ g_pch_thermal_context w2 = g_pch_thermal_context w1
    ∧ mmio w2 = mmio w1
    ∧ vmm_regions w2 = vmm_regions w1
    ∧ events w2 = events w1.
Proof.
  assert (Hp : regs (g_pch_thermal_context (mapped_world 340)) ≠ NULL)
    by discriminate.
  assert (Hm : vmm_regions (mapped_world 340)
                 !! regs (g_pch_thermal_context (mapped_world 340))
               = Some 0xffff0000) by apply lookup_singleton_eq.
  pose proof (cleanup_regs_mapped (Some example_device) _ _ Hp Hm) as Hfirst.
  eexists. 
  destruct (proj2 (teardown_idempotent None _) _ _ _ Hfirst)
    as (w2 & Hsecond & Hc & Hr & Hv & He).
  exists w2. split; [exact Hfirst|]. split; [exact Hsecond|].
  split; [exact Hc|]. split; [exact Hr|]. split; [exact Hv|].
  rewrite He. apply app_nil_r.
Defined.

(** C6. Whenever teardown returns, its actions were, in this order: the
    bus-level interrupt disable (if the device handle is valid); then, if
    [registers] was non-null, the store to [tsel] that clears the
    sensor-enable bit, then the release of the region based at [registers] in
    [address_space], both still as they were on entry; and at the end
    [address_space] and [registers] are null while [device_claimed] is what it
    was. *)
Theorem teardown_order (d d' : option pcie_device_state_t) (w w' : world) :
  pch_thermal_cleanup d w = Ok (d', w') ->
  events w' = events w
                ++ irq_disable_events d
                ++ (if decide (regs (g_pch_thermal_context w) ≠ NULL)
                    then [EvWriteTsel (tsel_disabled (tsel (mmio w)));
                          EvVmmFreeRegion (aspace (g_pch_thermal_context w))
                                          (regs (g_pch_thermal_context w))]
                    else [])
  ∧ (regs (g_pch_thermal_context w) ≠ NULL ->
     Z.testbit (tsel (mmio w')) 0 = false
     ∧ vmm_regions w' !! regs (g_pch_thermal_context w)
       ≠ Some (aspace (g_pch_thermal_context w)))
  ∧ aspace (g_pch_thermal_context w') = NULL
  ∧ regs (g_pch_thermal_context w') = NULL
  ∧ device_claimed (g_pch_thermal_context w')
    = device_claimed (g_pch_thermal_context w)
  ∧ d' = (with_irq_mode PCIE_IRQ_MODE_DISABLED <$> d).
Proof.
  intros Hrun.
  apply cleanup_returns in Hrun as (Hd & Hctx & Hev & _ & Hnz).
  split; [exact Hev|]. split.
  - intros Hp. destruct (Hnz Hp) as (_ & Ht & _ & _ & Hfree & _).
    split; [|exact Hfree]. rewrite Ht. apply tsel_disabled_bit0.
  - rewrite Hctx. cbn. auto.
Qed.

Lemma teardown_order_witness :
  ∃ w',
    pch_thermal_cleanup (Some example_device) (mapped_world 340)
      = Ok (Some (with_irq_mode PCIE_IRQ_MODE_DISABLED example_device), w')
    ∧ events w' = [EvSetIrqModeDisabled; EvWriteTsel 0;
                   EvVmmFreeRegion 0xffff0000 0xc0200000]
    ∧ g_pch_thermal_context w'
      = {| aspace := NULL; regs := NULL; device_claimed := true |}.
Proof.
  assert (Hp : regs (g_pch_thermal_context (mapped_world 340)) ≠ NULL)
    by discriminate.
  assert (Hm : vmm_regions (mapped_world 340)
                 !! regs (g_pch_thermal_context (mapped_world 340))
               = Some 0xffff0000) by apply lookup_singleton_eq.
  pose proof (cleanup_regs_mapped (Some example_device) _ _ Hp Hm) as Hrun.
  eexists. split; [exact Hrun|].
  destruct (teardown_order _ _ _ _ Hrun) as (He & _ & Ha & Hr & Hc & _).
  split; [exact He | reflexivity].
Defined.

(** ** Startup *)

Ltac run_in H :=
  repeat progress
    (unfold mbind, M_bind, mret, M_ret, get_ctx, put_ctx, emit, DEBUG_ASSERT in H;
     cbn beta iota in H).

Lemma if_error_ok {A} (st : status_t) (x y : A) :
  st = NO_ERROR -> (if decide (st ≠ NO_ERROR) then x else y) = y.
Proof. intros E. apply decide_False. auto. Qed.

(** Resolve every test on a status once [E] tells whether it is [NO_ERROR]. *)
Ltac on_status E H :=
  repeat progress
    (run_in H; cbn in H;
     rewrite ?(if_error_ok _ _ _ E), ?(decide_True _ _ E), ?(decide_False _ _ E) in H);
  rewrite ?(if_error_ok _ _ _ E), ?(decide_True _ _ E), ?(decide_False _ _ E).

Lemma lor_1_bit0 (t : Z) : Z.testbit (uint8 (Z.lor t 1)) 0 = true.
Proof.
  unfold uint8. rewrite Z.mod_pow2_bits_low by lia.
  rewrite Z.lor_spec. apply orb_true_r.
Qed.

Lemma acquire_inv (P : platform) (d d1 : pcie_device_state_t) (w w1 : world)
    (s : status_t) :
  startup_acquire P d w = Ok (s, d1, w1) ->
  ∃ b, startup_entry_ok d w b
    ∧ s = acquire_status P b
    ∧ driver_ctx d1 = driver_ctx d
    ∧ vendor_id d1 = vendor_id d ∧ device_id d1 = device_id d
    ∧ device_claimed (g_pch_thermal_context w1)
      = device_claimed (g_pch_thermal_context w)
    ∧ aspace (g_pch_thermal_context w1) = kernel_aspace P
    ∧ mmio w1 = mmio w
    ∧ (s ≠ NO_ERROR ->
       regs (g_pch_thermal_context w1) = NULL ∧ vmm_regions w1 = vmm_regions w)
    ∧ (s = NO_ERROR ->
       regs (g_pch_thermal_context w1) ≠ NULL
       ∧ regs (g_pch_thermal_context w1) = snd (alloc_physical_result P)
       ∧ vmm_regions w1
         = <[regs (g_pch_thermal_context w1) := kernel_aspace P]> (vmm_regions w)).
Proof.
  unfold startup_acquire, pcie_set_irq_mode, pcie_register_irq_handler,
    pcie_enable_mmio, startup_entry_ok, acquire_status, range_rejected.
  intros H. run_in H.
  case_bool_decide; [|discriminate].
  case_bool_decide; [|discriminate].
  destruct (bar0 d) as [b|]; [|discriminate].
  run_in H.
  destruct (Z.eqb_spec (bus_addr b) 0); [discriminate|]. cbn in H.
  exists b.
  destruct (decide (set_irq_mode_status P = NO_ERROR)) as [E1|E1]; on_status E1 H.
  2:{ simplify_eq. cbn. repeat split; try done. }
  destruct (decide (register_irq_handler_status P = NO_ERROR)) as [E2|E2];
    on_status E2 H.
  2:{ simplify_eq. cbn. repeat split; try done. }
  destruct (_ || _).
  { simplify_eq. cbn. repeat split; try done. }
  unfold vmm_alloc_physical in H.
  destruct (alloc_physical_result P) as [st v] eqn:Halloc. cbn [fst snd].
  destruct (decide (st = NO_ERROR)) as [E3|E3]; on_status E3 H.
  - destruct (Z.eqb_spec v NULL); [discriminate|]. cbn in H.
    simplify_eq. cbn. repeat split; try done.
  - simplify_eq. cbn. repeat split; try done.
Qed.

Lemma acquire_returns (P : platform) (d : pcie_device_state_t) (w : world)
    (b : pcie_bar_info_t) :
  startup_entry_ok d w b ->
  (fst (alloc_physical_result P) = NO_ERROR -> snd (alloc_physical_result P) ≠ NULL) ->
  ∃ d1 w1, startup_acquire P d w = Ok (acquire_status P b, d1, w1).
Proof.
  intros (Hr & Hd & Hb & Ha) Hv.
  unfold startup_acquire, pcie_set_irq_mode, pcie_register_irq_handler,
    pcie_enable_mmio, acquire_status, range_rejected.
  run. rewrite !bool_decide_eq_true_2 by done. rewrite Hb. run.
  destruct (Z.eqb_spec (bus_addr b) 0); [done|]. cbn.
  destruct (decide (set_irq_mode_status P = NO_ERROR)) as [E1|E1].
  2:{ rewrite !(decide_True _ _ E1). eauto. }
  rewrite !(if_error_ok _ _ _ E1). run.
  destruct (decide (register_irq_handler_status P = NO_ERROR)) as [E2|E2].
  2:{ rewrite !(decide_True _ _ E2). eauto. }
  rewrite !(if_error_ok _ _ _ E2). run.
  destruct (_ || _); [eauto|].
  unfold vmm_alloc_physical.
  destruct (alloc_physical_result P) as [st v] eqn:Halloc. cbn [fst snd] in *.
  destruct (decide (st = NO_ERROR)) as [E3|E3].
  - rewrite !(if_error_ok _ _ _ E3). cbn.
    destruct (Z.eqb_spec v NULL); [now destruct Hv|]. cbn. rewrite E3. eauto.
  - rewrite !(decide_True _ _ E3). eauto.
Qed.

#[local] Arguments pch_thermal_cleanup : simpl never.
#[local] Arguments startup_acquire : simpl never.
#[local] Arguments startup_configure : simpl never.
#[local] Arguments startup_body : simpl never.

Section StartupProperties.

Context (decode_temp encode_temp : Z -> Z).

Lemma threshold_step_run (w : world) (a : Z) :
  vmm_regions w !! regs (g_pch_thermal_context w) = Some a ->
  set_catastrophic_trip_threshold decode_temp encode_temp w =
    if 113 <=? current_ctt_of decode_temp (ctt (mmio w))
    then Ok (tt, log (EvWriteCtt (uint16 (encode_temp 113)))
                   (with_mmio {| tsel := tsel (mmio w);
                                 ctt := uint16 (encode_temp 113);
                                 tsc := tsc (mmio w) |} w))
    else Ok (tt, w).
Proof.
  intros Hm. unfold set_catastrophic_trip_threshold, regs_load, store_ctt,
    regs_store. run. rewrite Hm.
  destruct (113 <=? _); run; [now rewrite Hm | reflexivity].
Qed.

Lemma configure_inv (P : platform) (d d1 : pcie_device_state_t) (w w1 : world)
    (s : status_t) :
  startup_configure decode_temp encode_temp P d w = Ok (s, d1, w1) ->
  s = unmask_irq_status P
  ∧ driver_ctx d1 = driver_ctx d
  ∧ vendor_id d1 = vendor_id d ∧ device_id d1 = device_id d
  ∧ g_pch_thermal_context w1 = g_pch_thermal_context w
  ∧ vmm_regions w1 = vmm_regions w
  ∧ Z.testbit (tsel (mmio w1)) 0 = true.
Proof.
  unfold startup_configure, regs_load, store_tsel, store_tsc, regs_store,
    pcie_unmask_irq.
  intros H. run_in H.
  destruct (vmm_regions w !! regs (g_pch_thermal_context w)) as [a|] eqn:Hm;
    [|discriminate].
  cbn in H. rewrite Hm in H. run_in H.
  rewrite (threshold_step_run _ a) in H by exact Hm.
  destruct (113 <=? _); cbn in H; rewrite Hm in H; cbn in H; rewrite ?Hm in H;
    cbn in H; simplify_eq; cbn;
    (repeat split; try done; [destruct (decide _); done ..| apply lor_1_bit0]).
Qed.

Lemma configure_returns (P : platform) (d : pcie_device_state_t) (w : world)
    (a : Z) :
  vmm_regions w !! regs (g_pch_thermal_context w) = Some a ->
  ∃ d1 w1,
    startup_configure decode_temp encode_temp P d w
      = Ok (unmask_irq_status P, d1, w1).
Proof.
  intros Hm.
  unfold startup_configure, regs_load, store_tsel, store_tsc, regs_store,
    pcie_unmask_irq.
  run. rewrite Hm. cbn. rewrite Hm. run.
  rewrite (threshold_step_run _ a) by exact Hm.
  destruct (113 <=? _); cbn; rewrite Hm; cbn; rewrite ?Hm; cbn; eauto.
Qed.

Lemma body_inv (P : platform) (d d1 : pcie_device_state_t) (w w1 : world)
    (s : status_t) :
  startup_body decode_temp encode_temp P d w = Ok (s, d1, w1) ->
  ∃ b, startup_entry_ok d w b
    ∧ s = startup_status P b
    ∧ driver_ctx d1 = driver_ctx d
    ∧ vendor_id d1 = vendor_id d ∧ device_id d1 = device_id d
    ∧ device_claimed (g_pch_thermal_context w1)
      = device_claimed (g_pch_thermal_context w)
    ∧ aspace (g_pch_thermal_context w1) = kernel_aspace P
    ∧ (acquire_status P b ≠ NO_ERROR ->
       regs (g_pch_thermal_context w1) = NULL
       ∧ vmm_regions w1 = vmm_regions w ∧ mmio w1 = mmio w)
    ∧ (acquire_status P b = NO_ERROR ->
       regs (g_pch_thermal_context w1) ≠ NULL
       ∧ regs (g_pch_thermal_context w1) = snd (alloc_physical_result P)
       ∧ vmm_regions w1
         = <[regs (g_pch_thermal_context w1) := kernel_aspace P]> (vmm_regions w)
       ∧ Z.testbit (tsel (mmio w1)) 0 = true).
Proof.
  unfold startup_body. intros H. run_in H.
  destruct (startup_acquire P d w) as [|[[s0 d0] w0]] eqn:Hacq; [discriminate|].
  apply acquire_inv in Hacq
    as (b & Hentry & Hs & Hd & Hvid & Hdid & Hcl & Has & Hmm & Hfail & Hok).
  exists b. split; [exact Hentry|]. unfold startup_status. rewrite <- Hs.
  destruct (decide (s0 = NO_ERROR)) as [E|E]; on_status E H.
  - apply configure_inv in H as (Hs1 & Hd1 & Hvid1 & Hdid1 & Hctx & Hreg & Hbit).
    destruct (Hok E) as (Hnz & Hv & Hregs).
    rewrite Hctx, Hreg. repeat split; try congruence.
  - simplify_eq. destruct (Hfail E) as [Hz Hregs].
    repeat split; try done.
Qed.

Lemma startup_inv (P : platform) (d d' : pcie_device_state_t) (w w' : world)
    (s : status_t) :
  pch_thermal_startup decode_temp encode_temp P d w = Ok (s, d', w') ->
  ∃ d1 w1,
    startup_body decode_temp encode_temp P d w = Ok (s, d1, w1)
    ∧ (s ≠ NO_ERROR -> pch_thermal_cleanup (Some d1) w1 = Ok (Some d', w'))
    ∧ (s = NO_ERROR -> d' = d1 ∧ w' = w1).
Proof.
  unfold pch_thermal_startup, finished. intros H. run_in H.
  destruct (startup_body _ _ P d w) as [|[[s0 d0] w0]] eqn:Hbody; [discriminate|].
  destruct (decide (s0 = NO_ERROR)) as [E|E]; on_status E H.
  - simplify_eq. exists d', w'. repeat split; done.
  - destruct (pch_thermal_cleanup (Some d0) w0) as [|[dc wc]] eqn:Hc;
      [discriminate|].
    pose proof (cleanup_returns _ _ _ _ Hc) as (Hd & _).
    cbn in H. simplify_eq. exists d0, w0.
    split; [reflexivity|]. split; [|done]. intros _. exact Hc.
Qed.

Lemma startup_returns (P : platform) (d : pcie_device_state_t) (w : world)
    (b : pcie_bar_info_t) :
  startup_entry_ok d w b ->
  (fst (alloc_physical_result P) = NO_ERROR -> snd (alloc_physical_result P) ≠ NULL) ->
  ∃ d' w',
    pch_thermal_startup decode_temp encode_temp P d w
      = Ok (startup_status P b, d', w').
Proof.
  intros Hentry Hv.
  destruct (acquire_returns P d w b Hentry Hv) as (d0 & w0 & Hacq).
  pose proof (acquire_inv _ _ _ _ _ _ Hacq)
    as (b' & _ & _ & _ & _ & _ & _ & Has & _ & Hfail & Hok).
  assert (Hbody : ∃ d1 w1, startup_body decode_temp encode_temp P d w
                             = Ok (startup_status P b, d1, w1)
            ∧ (regs (g_pch_thermal_context w1) ≠ NULL ->
               is_Some (vmm_regions w1 !! regs (g_pch_thermal_context w1)))).
  { unfold startup_body, startup_status. run. rewrite Hacq.
    destruct (decide (acquire_status P b = NO_ERROR)) as [E|E].
    - rewrite !(if_error_ok _ _ _ E).
      destruct (Hok E) as (Hnz & _ & Hregs).
      assert (Hm : vmm_regions w0 !! regs (g_pch_thermal_context w0)
                   = Some (kernel_aspace P))
        by (rewrite Hregs at 1; apply lookup_insert_eq).
      destruct (configure_returns P d0 w0 _ Hm) as (d1 & w1 & Hcfg).
      exists d1, w1. split; [exact Hcfg|]. intros _.
      apply configure_inv in Hcfg as (_ & _ & _ & _ & Hctx & Hreg & _).
      rewrite Hctx, Hreg, Hm. eauto.
    - rewrite !(decide_True _ _ E). exists d0, w0. split; [reflexivity|].
      intros Hnz. destruct (Hfail E) as [Hz _]. contradiction. }
  destruct Hbody as (d1 & w1 & Hbody & Hmapped).
  unfold pch_thermal_startup, finished. run. rewrite Hbody.
  destruct (decide (startup_status P b = NO_ERROR)) as [E|E].
  - rewrite !(if_error_ok _ _ _ E). eauto.
  - rewrite !(decide_True _ _ E).
    destruct (decide (regs (g_pch_thermal_context w1) = NULL)) as [Hz|Hnz].
    + rewrite (cleanup_regs_absent _ _ Hz). cbn. eauto.
    + destruct (Hmapped Hnz) as [a Ha].
      rewrite (cleanup_regs_mapped _ _ a Hnz Ha). cbn. eauto.
Qed.

End StartupProperties.

(** ** Two runs of startup, step by step *)

(** Every step succeeds: the calls and register stores in program order, the
    stored threshold of 120 degrees clamped to 113 (raw 326). *)
Example startup_run_success :
  ∃ d' w',
    pch_thermal_startup example_decode example_encode example_platform
      example_bound_device (grant example_world) = Ok (NO_ERROR, d', w')
    ∧ events w' =
        [EvSetIrqMode PCIE_IRQ_MODE_LEGACY 1 NO_ERROR;
         EvRegisterIrqHandler 0 NO_ERROR;
         EvVmmAllocPhysical 0xffff0000 0x1000 0xfe100000 NO_ERROR 0xc0200000;
         EvEnableMmio true;
         EvWriteTsel 1; EvWriteCtt 326; EvWriteTsc 1;
         EvUnmaskIrq 0 NO_ERROR]
    ∧ mmio w' = {| tsel := 1; ctt := 326; tsc := 1 |}
    ∧ g_pch_thermal_context w'
      = {| aspace := 0xffff0000; regs := 0xc0200000; device_claimed := true |}
    ∧ vmm_regions w' !! 0xc0200000 = Some 0xffff0000.
Proof.
  eexists _, _. split; [vm_compute; reflexivity|].
  repeat split; reflexivity.
Qed.

(** The last step fails: teardown follows, and the status comes back. *)
Example startup_run_unmask_failure :
  ∃ d' w',
    pch_thermal_startup example_decode example_encode example_platform_no_unmask
      example_bound_device (grant example_world) = Ok (ERR_OTHER (-2), d', w')
    ∧ events w' =
        [EvSetIrqMode PCIE_IRQ_MODE_LEGACY 1 NO_ERROR;
         EvRegisterIrqHandler 0 NO_ERROR;
         EvVmmAllocPhysical 0xffff0000 0x1000 0xfe100000 NO_ERROR 0xc0200000;
         EvEnableMmio true;
         EvWriteTsel 1; EvWriteCtt 326; EvWriteTsc 1;
         EvUnmaskIrq 0 (ERR_OTHER (-2));
         EvSetIrqModeDisabled;
         EvWriteTsel 0;
         EvVmmFreeRegion 0xffff0000 0xc0200000]
    ∧ mmio w' = {| tsel := 0; ctt := 326; tsc := 1 |}
    ∧ g_pch_thermal_context w'
      = {| aspace := NULL; regs := NULL; device_claimed := true |}
    ∧ vmm_regions w' !! 0xc0200000 = None
    ∧ irq_mode d' = PCIE_IRQ_MODE_DISABLED.
Proof.
  eexists _, _. split; [vm_compute; reflexivity|].
  repeat split; reflexivity.
Qed.

(** ** The threshold step and the codec *)

Lemma field_9_bits (v : Z) : 0 <= v < 2 ^ 9 -> Z.land (uint16 v) 0x1ff = v.
Proof.
  intros Hv. unfold uint16. rewrite Z.mod_small by lia.
  change 0x1ff with (Z.ones 9). rewrite Z.land_ones by lia.
  apply Z.mod_small. lia.
Qed.

(** C1. On mapped registers, with a codec whose code for 113 degrees fits the
    9-bit field and decodes back to 113: if the low 9 bits of [ctt] decode (as
    startup reads them into [current_ctt]) to 113 or more, then after the
    threshold step those bits are exactly [encode_temp 113] and decode to 113;
    if they decode to less than 113, the step changes nothing at all. *)
Theorem clamp_law (decode_temp encode_temp : Z -> Z) (w : world) (a : Z) :
  vmm_regions w !! regs (g_pch_thermal_context w) = Some a ->
  0 <= encode_temp 113 < 2 ^ 9 ->
  decode_temp (encode_temp 113) = 113 ->
  ∃ w', set_catastrophic_trip_threshold decode_temp encode_temp w = Ok (tt, w')
    ∧ (113 <= current_ctt_of decode_temp (ctt (mmio w)) ->
       Z.land (ctt (mmio w')) 0x1ff = encode_temp 113
       ∧ current_ctt_of decode_temp (ctt (mmio w')) = 113)
    ∧ (current_ctt_of decode_temp (ctt (mmio w)) < 113 -> w' = w).
Proof.
  intros Hm Hfit Hrt. rewrite (threshold_step_run _ _ _ a Hm).
  destruct (113 <=? _) eqn:Hcmp.
  - eexists. split; [reflexivity|]. cbn. split.
    + intros _. rewrite (field_9_bits _ Hfit). split; [reflexivity|].
      unfold current_ctt_of. rewrite (field_9_bits _ Hfit), Hrt. reflexivity.
    + apply Z.leb_le in Hcmp. lia.
  - exists w. split; [reflexivity|]. apply Z.leb_gt in Hcmp. split; [lia|auto].
Qed.

Lemma clamp_law_witness :
  (∃ w', set_catastrophic_trip_threshold example_decode example_encode
           (mapped_world 340) = Ok (tt, w')
         ∧ Z.land (ctt (mmio w')) 0x1ff = 326
         ∧ current_ctt_of example_decode (ctt (mmio w')) = 113)
  ∧ (∃ w', set_catastrophic_trip_threshold example_decode example_encode
           (mapped_world 270) = Ok (tt, w')
         ∧ w' = mapped_world 270).
Proof.
  assert (Hfit : 0 <= example_encode 113 < 2 ^ 9)
    by (unfold example_encode, ThresholdCodec.encode_temp; lia).
  assert (Hrt : example_decode (example_encode 113) = 113) by reflexivity.
  split.
  - destruct (clamp_law example_decode example_encode (mapped_world 340)
                0xffff0000 (lookup_singleton_eq _ _) Hfit Hrt)
      as (w' & Hrun & Hhigh & _).
    exists w'. split; [exact Hrun|]. apply Hhigh. apply Z.leb_le. reflexivity.
  - destruct (clamp_law example_decode example_encode (mapped_world 270)
                0xffff0000 (lookup_singleton_eq _ _) Hfit Hrt)
      as (w' & Hrun & _ & Hlow).
    exists w'. split; [exact Hrun|]. apply Hlow. reflexivity.
Defined.




(** ** Failure unwind *)

Lemma startup_status_ok (P : platform) (b : pcie_bar_info_t) :
  startup_status P b = NO_ERROR -> acquire_status P b = NO_ERROR.
Proof.
  unfold startup_status. destruct (decide (acquire_status P b = NO_ERROR)) as [E|E].
  - auto.
  - rewrite (decide_True _ _ E). auto.
Qed.

(** C2. When startup's entry assertions hold and one of its steps fails (IRQ
    mode, IRQ handler, address range, mapping, IRQ unmask: the first failure
    is [startup_status]), startup runs teardown on the state the failing step
    left and then returns that status; afterwards [registers] and
    [address_space] are null, [device_claimed] is what it was, interrupt
    delivery is disabled and no region is mapped that was not mapped before. *)
Theorem startup_failure_unwind (decode_temp encode_temp : Z -> Z)
    (P : platform) (d : pcie_device_state_t) (w : world) (b : pcie_bar_info_t) :
  startup_entry_ok d w b ->
  (fst (alloc_physical_result P) = NO_ERROR -> snd (alloc_physical_result P) ≠ NULL) ->
  startup_status P b ≠ NO_ERROR ->
  ∃ d1 w1 d' w',
    startup_body decode_temp encode_temp P d w = Ok (startup_status P b, d1, w1)
    ∧ pch_thermal_cleanup (Some d1) w1 = Ok (Some d', w')
    ∧ pch_thermal_startup decode_temp encode_temp P d w
      = Ok (startup_status P b, d', w')
    ∧ regs (g_pch_thermal_context w') = NULL
    ∧ aspace (g_pch_thermal_context w') = NULL
    ∧ device_claimed (g_pch_thermal_context w')
      = device_claimed (g_pch_thermal_context w)
    ∧ irq_mode d' = PCIE_IRQ_MODE_DISABLED
    ∧ (∀ v, vmm_regions w !! v = None -> vmm_regions w' !! v = None).
Proof.
  intros Hentry Hv Hfail.
  destruct (startup_returns decode_temp encode_temp P d w b Hentry Hv)
    as (d' & w' & Hrun).
  destruct (startup_inv _ _ _ _ _ _ _ _ Hrun) as (d1 & w1 & Hbody & Hclean & _).
  specialize (Hclean Hfail).
  exists d1, w1, d', w'. split; [exact Hbody|]. split; [exact Hclean|].
  split; [exact Hrun|].
  destruct (body_inv _ _ _ _ _ _ _ _ Hbody)
    as (b' & (_ & _ & Hb' & _) & _ & _ & _ & _ & Hcl & Has & Hbad & Hgood).
  destruct Hentry as (_ & _ & Hb & _).
  assert (b' = b) by congruence. subst b'.
  destruct (cleanup_returns _ _ _ _ Hclean) as (Hd & Hctx & _ & _ & Hnz).
  rewrite Hctx. cbn. repeat split; try done.
  - injection Hd as ->. reflexivity.
  - intros v Hnone.
    destruct (decide (acquire_status P b = NO_ERROR)) as [E|E].
    + destruct (Hgood E) as (Hreg & _ & Hregs & _).
      assert (Hlook : vmm_regions w1 !! regs (g_pch_thermal_context w1)
                      = Some (kernel_aspace P))
        by (rewrite Hregs at 1; apply lookup_insert_eq).
      rewrite (cleanup_regs_mapped _ _ _ Hreg Hlook) in Hclean.
      injection Hclean as _ <-. cbn. rewrite decide_True by (symmetry; exact Has).
      destruct (decide (regs (g_pch_thermal_context w1) = v)) as [<-|Hne].
      * apply lookup_delete_eq.
      * rewrite lookup_delete_ne by exact Hne. rewrite Hregs.
        now rewrite lookup_insert_ne.
    + destruct (Hbad E) as (Hz & Hregs & _).
      destruct (cleanup_returns _ _ _ _ Hclean) as (_ & _ & _ & Hsame & _).
      destruct (Hsame Hz) as [_ ->]. now rewrite Hregs.
Qed.

Lemma startup_failure_unwind_witness :
  ∃ d' w',
    pch_thermal_startup example_decode example_encode example_platform_no_mapping
      example_bound_device (grant example_world)
      = Ok (ERR_OTHER (-4), d', w')
    ∧ regs (g_pch_thermal_context w') = NULL
    ∧ aspace (g_pch_thermal_context w') = NULL
    ∧ device_claimed (g_pch_thermal_context w') = true
    ∧ irq_mode d' = PCIE_IRQ_MODE_DISABLED.
Proof.
  assert (Hentry : startup_entry_ok example_bound_device (grant example_world)
                     {| bus_addr := 0xfe100000; bar_size := 0x1000 |})
    by (repeat split; discriminate).
  assert (Hv : fst (alloc_physical_result example_platform_no_mapping) = NO_ERROR ->
               snd (alloc_physical_result example_platform_no_mapping) ≠ NULL)
    by discriminate.
  assert (Hfail : startup_status example_platform_no_mapping
                    {| bus_addr := 0xfe100000; bar_size := 0x1000 |} ≠ NO_ERROR)
    by discriminate.
  destruct (startup_failure_unwind example_decode example_encode _ _ _ _
              Hentry Hv Hfail)
    as (d1 & w1 & d' & w' & _ & _ & Hrun & Hr & Ha & Hc & Hi & _).
  exists d', w'. split; [exact Hrun|]. repeat split; assumption.
Defined.

(** ** The BAR check *)

Lemma acquire_bar_assert (P : platform) (d : pcie_device_state_t) (w : world) :
  bar0 d = None ∨ (∃ b, bar0 d = Some b ∧ bus_addr b = 0) ->
  startup_acquire P d w = Crash AssertFailed.
Proof.
  intros Hbar. unfold startup_acquire. run.
  case_bool_decide; [|reflexivity].
  case_bool_decide; [|reflexivity].
  destruct Hbar as [->|(b & -> & Hz)]; run; [reflexivity|].
  rewrite Hz. reflexivity.
Qed.

(** C8, as the code has it. When BAR 0 does not exist, or its bus address is
    zero, startup does not return at all: [DEBUG_ASSERT(bar_info &&
    bar_info->bus_addr)] fails. The size of the region is not looked at: with
    the entry assertions satisfied, a BAR of size zero goes through the same
    steps as any other and startup returns [startup_status]. *)
Theorem startup_bar_check (decode_temp encode_temp : Z -> Z)
    (P : platform) (d : pcie_device_state_t) (w : world) :
  (bar0 d = None ∨ (∃ b, bar0 d = Some b ∧ bus_addr b = 0) ->
   pch_thermal_startup decode_temp encode_temp P d w = Crash AssertFailed)
  ∧ (∀ b, startup_entry_ok d w b -> bar_size b = 0 ->
     (fst (alloc_physical_result P) = NO_ERROR ->
      snd (alloc_physical_result P) ≠ NULL) ->
     ∃ d' w', pch_thermal_startup decode_temp encode_temp P d w
                = Ok (startup_status P b, d', w')).
Proof.
  split.
  - intros Hbar. unfold pch_thermal_startup, startup_body. run.
    now rewrite (acquire_bar_assert P d w Hbar).
  - intros b Hentry _ Hv. now apply startup_returns.
Qed.

Lemma startup_bar_check_witness :
  pch_thermal_startup example_decode example_encode example_platform
    example_device_no_bar (grant example_world) = Crash AssertFailed.
Proof.
  apply (proj1 (startup_bar_check example_decode example_encode example_platform
                  example_device_no_bar (grant example_world))).
  left. reflexivity.
Defined.

(** C8, counterexample. Without a BAR 0 startup panics on its assertion, so
    no status, [ERR_INVALID_ARGS] or other, comes back; and with a BAR 0 of
    size zero startup succeeds on a platform whose calls all succeed. *)
Lemma startup_missing_bar_is_fatal :
  pch_thermal_startup example_decode example_encode example_platform
    example_device_no_bar (grant example_world) = Crash AssertFailed
  ∧ ∃ d' w',
      pch_thermal_startup example_decode example_encode example_platform
        example_device_empty_bar (grant example_world) = Ok (NO_ERROR, d', w').
Proof.
  split.
  - unfold pch_thermal_startup, startup_body. run.
    rewrite acquire_bar_assert; [reflexivity | left; reflexivity].
  - apply (startup_returns example_decode example_encode example_platform
             example_device_empty_bar (grant example_world)
             {| bus_addr := 0xfe100000; bar_size := 0 |}).
    + repeat split; discriminate.
    + discriminate.
Qed.

(** ** Full lifecycle *)

Lemma shutdown_mapped (d : pcie_device_state_t) (w : world) (a : Z) :
  driver_ctx d = addr_g_pch_thermal_context ->
  regs (g_pch_thermal_context w) ≠ NULL ->
  vmm_regions w !! regs (g_pch_thermal_context w) = Some a ->
  ∃ w', pch_thermal_shutdown d w = Ok (with_irq_mode PCIE_IRQ_MODE_DISABLED d, w')
        ∧ g_pch_thermal_context w' = torn_down (g_pch_thermal_context w).
Proof.
  intros Hd Hnz Hm. unfold pch_thermal_shutdown. run.
  rewrite bool_decide_eq_true_2 by done.
  rewrite (cleanup_regs_mapped _ _ a Hnz Hm). cbn. eauto.
Qed.

Lemma release_torn_down (w : world) :
  regs (g_pch_thermal_context w) = NULL ->
  pch_thermal_release addr_g_pch_thermal_context w =
    Ok (tt, with_ctx {| aspace := aspace (g_pch_thermal_context w);
                        regs := regs (g_pch_thermal_context w);
                        device_claimed := false |} w).
Proof.
  intros Hz. unfold pch_thermal_release. run.
  rewrite !bool_decide_eq_true_2 by done. reflexivity.
Qed.

(** C9. From the initial singleton, for a supported device with a usable BAR 0
    on a platform where no startup step fails: probe grants the claim, startup
    (on the device bound to the handle probe returned) succeeds, shutdown and
    release return, the singleton is then exactly the initial one, and a probe
    with the same identity is granted again. *)
Theorem full_lifecycle (decode_temp encode_temp : Z -> Z)
    (P : platform) (d : pcie_device_state_t) (w : world) (b : pcie_bar_info_t) :
  g_pch_thermal_context w = initial_context ->
  supported d ->
  bar0 d = Some b ->
  bus_addr b ≠ 0 ->
  startup_status P b = NO_ERROR ->
  snd (alloc_physical_result P) ≠ NULL ->
  ∃ w1 d2 w2 d3 w3 w4,
    pch_thermal_probe d w = Ok (addr_g_pch_thermal_context, w1)
    ∧ pch_thermal_startup decode_temp encode_temp P
        (with_driver_ctx addr_g_pch_thermal_context d) w1 = Ok (NO_ERROR, d2, w2)
    ∧ regs (g_pch_thermal_context w2) ≠ NULL
    ∧ pch_thermal_shutdown d2 w2 = Ok (d3, w3)
    ∧ pch_thermal_release (driver_ctx d3) w3 = Ok (tt, w4)
    ∧ g_pch_thermal_context w4 = initial_context
    ∧ pch_thermal_probe d w4 = Ok (addr_g_pch_thermal_context, grant w4).
Proof.
  intros Hinit Hsup Hbar Haddr Hok Hv.
  assert (Hscan : (vendor_id d =? INTEL_VID)
                  && probe_scan intel_dids (device_id d) = true)
    by now apply supported_scan.
  (* probe *)
  assert (Hprobe : pch_thermal_probe d w = Ok (addr_g_pch_thermal_context, grant w)).
  { rewrite probe_unclaimed by now rewrite Hinit. now rewrite Hscan. }
  (* startup *)
  assert (Hentry : startup_entry_ok (with_driver_ctx addr_g_pch_thermal_context d)
                     (grant w) b).
  { repeat split; try done. cbn. now rewrite Hinit. }
  destruct (startup_returns decode_temp encode_temp P _ _ b Hentry (fun _ => Hv))
    as (d2 & w2 & Hstart).
  rewrite Hok in Hstart.
  destruct (startup_inv _ _ _ _ _ _ _ _ Hstart) as (d1 & w1 & Hbody & _ & Hsame).
  destruct (Hsame eq_refl) as [-> ->].
  destruct (body_inv _ _ _ _ _ _ _ _ Hbody)
    as (b' & (_ & _ & Hb' & _) & _ & Hd & _ & _ & Hcl & Has & _ & Hgood).
  cbn in Hb'. assert (b' = b) by congruence. subst b'.
  destruct (Hgood (startup_status_ok _ _ Hok)) as (Hnz & _ & Hregs & _).
  assert (Hm : vmm_regions w1 !! regs (g_pch_thermal_context w1)
               = Some (kernel_aspace P))
    by (rewrite Hregs at 1; apply lookup_insert_eq).
  (* shutdown *)
  destruct (shutdown_mapped d1 w1 _ Hd Hnz Hm) as (w3 & Hshut & Hctx3).
  (* release *)
  assert (Hz3 : regs (g_pch_thermal_context w3) = NULL) by now rewrite Hctx3.
  pose proof (release_torn_down w3 Hz3) as Hrel.
  eexists _, _, _, _, _, _.
  split; [exact Hprobe|]. split; [exact Hstart|]. split; [exact Hnz|].
  split; [exact Hshut|]. split; [cbn; rewrite Hd; exact Hrel|].
  split.
  - cbn. rewrite Hctx3. reflexivity.
  - rewrite probe_unclaimed by reflexivity. now rewrite Hscan.
Qed.

Lemma full_lifecycle_witness :
  ∃ w1 d2 w2 d3 w3 w4,
    pch_thermal_probe example_device example_world
      = Ok (addr_g_pch_thermal_context, w1)
    ∧ pch_thermal_startup example_decode example_encode example_platform
        example_bound_device w1 = Ok (NO_ERROR, d2, w2)
    ∧ regs (g_pch_thermal_context w2) ≠ NULL
    ∧ pch_thermal_shutdown d2 w2 = Ok (d3, w3)
    ∧ pch_thermal_release (driver_ctx d3) w3 = Ok (tt, w4)
    ∧ g_pch_thermal_context w4 = initial_context
    ∧ pch_thermal_probe example_device w4
      = Ok (addr_g_pch_thermal_context, grant w4).
Proof.
  apply (full_lifecycle example_decode example_encode example_platform
           example_device example_world
           {| bus_addr := 0xfe100000; bar_size := 0x1000 |}).
  - reflexivity.
  - apply supported_scan. reflexivity.
  - reflexivity.
  - discriminate.
  - reflexivity.
  - discriminate.
Defined.

(** ** Invariant I1 *)

Lemma I1_regs_null (w : world) :
  regs (g_pch_thermal_context w) = NULL ->
  ¬ (register_window_mapped w ∧ sensor_enabled w) ->
  I1 w.
Proof.
  unfold I1. intros Hz Hoff. rewrite Hz. split.
  - intros Hne. now destruct Hne.
  - intros Hon. now destruct Hoff.
Qed.

Lemma I1_off (w : world) :
  I1 w -> regs (g_pch_thermal_context w) = NULL ->
  ¬ (register_window_mapped w ∧ sensor_enabled w).
Proof. unfold I1. intros [_ Hback] Hz Hon. now apply (Hback Hon). Qed.

Lemma I1_after_cleanup (d d' : option pcie_device_state_t) (w w' : world) :
  (regs (g_pch_thermal_context w) = NULL ->
   ¬ (register_window_mapped w ∧ sensor_enabled w)) ->
  pch_thermal_cleanup d w = Ok (d', w') ->
  I1 w' ∧ registers_at_window w'.
Proof.
  intros Hoff Hrun.
  destruct (cleanup_returns _ _ _ _ Hrun) as (_ & Hctx & _ & Hz & Hnz).
  assert (Hz' : regs (g_pch_thermal_context w') = NULL) by now rewrite Hctx.
  split.
  - apply I1_regs_null; [exact Hz'|].
    destruct (decide (regs (g_pch_thermal_context w) = NULL)) as [E|E].
    + destruct (Hz E) as [Hmm Hregs].
      unfold register_window_mapped, sensor_enabled. rewrite Hmm, Hregs.
      exact (Hoff E).
    + destruct (Hnz E) as (_ & Ht & _).
      unfold sensor_enabled. rewrite Ht, tsel_disabled_bit0.
      intros [_ Hset]. discriminate Hset.
  - intros Hnz'. contradiction.
Qed.

(** C4, as the code has it. I1 holds between operations. Suppose that, when
    an entry point is called, [registers] is non-null exactly when a register
    window is mapped and the sensor-enable bit is set, and that [registers],
    when set, is the base of that window in [address_space]. Then both hold
    again when the entry point returns. *)
Theorem I1_between_operations (decode_temp encode_temp : Z -> Z)
    (e : entry_point) (w w' : world) :
  I1 w -> registers_at_window w ->
  run_entry decode_temp encode_temp e w = Ok (tt, w') ->
  I1 w' ∧ registers_at_window w'.
Proof.
  intros Hi Hat Hrun. destruct e as [d|P d|d|p]; cbn in Hrun; run_in Hrun.
  - (* probe *)
    destruct (pch_thermal_probe d w) as [|[p w1]] eqn:Hp; [discriminate|].
    injection Hrun as <-.
    destruct (device_claimed (g_pch_thermal_context w)) eqn:Hc.
    + rewrite (probe_claimed _ _ Hc) in Hp. injection Hp as _ <-. auto.
    + rewrite (probe_unclaimed _ _ Hc) in Hp.
      destruct (_ && _); injection Hp as _ <-; auto.
  - (* startup *)
    destruct (pch_thermal_startup _ _ P d w) as [|[[s d1] w1]] eqn:Hs;
      [discriminate|].
    injection Hrun as <-.
    destruct (startup_inv _ _ _ _ _ _ _ _ Hs) as (d0 & w0 & Hbody & Hbad & Hgood).
    destruct (body_inv _ _ _ _ _ _ _ _ Hbody)
      as (b & (Hz & _) & Hst & _ & _ & _ & _ & Has & Hfail & Hok).
    destruct (decide (s = NO_ERROR)) as [E|E].
    + destruct (Hgood E) as [-> ->].
      rewrite E in Hst. symmetry in Hst.
      destruct (Hok (startup_status_ok _ _ Hst)) as (Hnz & _ & Hregs & Hbit).
      assert (Hm : window_mapped w0).
      { unfold window_mapped. rewrite Hregs at 1. rewrite lookup_insert_eq.
        now rewrite Has. }
      split; [|intros _; exact Hm].
      unfold I1, register_window_mapped, sensor_enabled.
      split; [|intros _; exact Hnz]. intros _. split; [|exact Hbit].
      exists (regs (g_pch_thermal_context w0)). rewrite Hm. eauto.
    + apply (I1_after_cleanup (Some d0) (Some d1) w0 w1); [|exact (Hbad E)].
      intros Hz0.
      destruct (decide (acquire_status P b = NO_ERROR)) as [Ea|Ea].
      * destruct (Hok Ea) as (Hnz & _). contradiction.
      * destruct (Hfail Ea) as (_ & Hregs & Hmm).
        unfold register_window_mapped, sensor_enabled. rewrite Hregs, Hmm.
        exact (I1_off w Hi Hz).
  - (* shutdown *)
    unfold pch_thermal_shutdown in Hrun. run_in Hrun.
    case_bool_decide; [|discriminate].
    destruct (pch_thermal_cleanup (Some d) w) as [|[d1 w1]] eqn:Hc; [discriminate|].
    cbn in Hrun. injection Hrun as <-.
    exact (I1_after_cleanup _ _ _ _ (I1_off w Hi) Hc).
  - (* release *)
    unfold pch_thermal_release in Hrun. run_in Hrun.
    case_bool_decide; [|discriminate].
    case_bool_decide; [|discriminate].
    injection Hrun as <-. auto.
Qed.

Lemma I1_between_operations_witness :
  ∃ w1 w2,
    run_entry example_decode example_encode
      (CallStartup example_platform example_bound_device) (grant example_world)
      = Ok (tt, w1)
    ∧ I1 w1 ∧ registers_at_window w1
    ∧ regs (g_pch_thermal_context w1) ≠ NULL
    ∧ run_entry example_decode example_encode
        (CallShutdown example_bound_device) w1 = Ok (tt, w2)
    ∧ I1 w2 ∧ registers_at_window w2
    ∧ regs (g_pch_thermal_context w2) = NULL.
Proof.
  assert (Hrun1 : ∃ w1,
            run_entry example_decode example_encode
              (CallStartup example_platform example_bound_device)
              (grant example_world) = Ok (tt, w1)
            ∧ regs (g_pch_thermal_context w1) ≠ NULL).
  { eexists. split; [vm_compute; reflexivity | discriminate]. }
  destruct Hrun1 as (w1 & Hrun1 & Hnz1).
  assert (Hi0 : I1 (grant example_world)).
  { apply I1_regs_null; [reflexivity|]. intros [[v [a Hv]] _].
    cbn in Hv. rewrite lookup_empty in Hv. discriminate Hv. }
  assert (Hat0 : registers_at_window (grant example_world)).
  { intros Hnz. now destruct Hnz. }
  destruct (I1_between_operations example_decode example_encode _ _ _
              Hi0 Hat0 Hrun1) as [Hi1 Hat1].
  assert (Hrun2 : ∃ w2,
            run_entry example_decode example_encode
              (CallShutdown example_bound_device) w1 = Ok (tt, w2)
            ∧ regs (g_pch_thermal_context w2) = NULL).
  { vm_compute in Hrun1. injection Hrun1 as <-.
    eexists. split; [vm_compute; reflexivity | reflexivity]. }
  destruct Hrun2 as (w2 & Hrun2 & Hz2).
  destruct (I1_between_operations example_decode example_encode _ _ _
              Hi1 Hat1 Hrun2) as [Hi2 Hat2].
  exists w1, w2.
  split; [exact Hrun1|]. split; [exact Hi1|]. split; [exact Hat1|].
  split; [exact Hnz1|]. split; [exact Hrun2|]. split; [exact Hi2|].
  split; [exact Hat2 | exact Hz2].
Defined.

(** C4, counterexample. Startup stores the mapped pointer into [registers]
    (line 128) before it sets the sensor-enable bit (line 131): at that point
    [registers] is non-null and the window is mapped while bit 0 of [tsel] is
    still clear, and I1 does not hold. *)
Lemma registers_set_before_sensor_enabled :
  ∃ d1 w1,
    startup_acquire example_platform example_bound_device (grant example_world)
      = Ok (NO_ERROR, d1, w1)
    ∧ regs (g_pch_thermal_context w1) = 0xc0200000
    ∧ window_mapped w1
    ∧ Z.testbit (tsel (mmio w1)) 0 = false
    ∧ ¬ I1 w1.
Proof.
  destruct (acquire_returns example_platform example_bound_device
              (grant example_world)
              {| bus_addr := 0xfe100000; bar_size := 0x1000 |})
    as (d1 & w1 & Hacq).
  { repeat split; discriminate. }
  { discriminate. }
  exists d1, w1. split; [exact Hacq|].
  destruct (acquire_inv _ _ _ _ _ _ Hacq)
    as (b & _ & _ & _ & _ & _ & _ & Has & Hmm & _ & Hok).
  destruct (Hok eq_refl) as (Hnz & Hv & Hregs).
  assert (Hbit : Z.testbit (tsel (mmio w1)) 0 = false) by now rewrite Hmm.
  split; [exact Hv|]. split.
  - unfold window_mapped. rewrite Hregs at 1. rewrite lookup_insert_eq.
    now rewrite Has.
  - split; [exact Hbit|]. unfold I1, sensor_enabled. intros [Hto _].
    destruct (Hto Hnz) as [_ Hset]. congruence.
Qed.

(** * Further properties of the entry points *)

(** ** Startup, step by step *)

Lemma acquire_status_ok (P : platform) (b : pcie_bar_info_t) :
  acquire_status P b = NO_ERROR ->
  set_irq_mode_status P = NO_ERROR
  ∧ register_irq_handler_status P = NO_ERROR
  ∧ range_rejected P b = false
  ∧ fst (alloc_physical_result P) = NO_ERROR.
Proof.
  unfold acquire_status.
  destruct (decide (set_irq_mode_status P = NO_ERROR)) as [E1|E1].
  2:{ rewrite (decide_True _ _ E1). intros; contradiction. }
  rewrite (if_error_ok _ _ _ E1).
  destruct (decide (register_irq_handler_status P = NO_ERROR)) as [E2|E2].
  2:{ rewrite (decide_True _ _ E2). intros; contradiction. }
  rewrite (if_error_ok _ _ _ E2).
  destruct (range_rejected P b); [discriminate|]. auto.
Qed.

Lemma acquire_run (P : platform) (d : pcie_device_state_t) (w : world)
    (b : pcie_bar_info_t) :
  startup_entry_ok d w b ->
  acquire_status P b = NO_ERROR ->
  snd (alloc_physical_result P) ≠ NULL ->
  startup_acquire P d w =
    Ok (NO_ERROR, acquired_device d,
        {| g_pch_thermal_context :=
             {| aspace := kernel_aspace P;
                regs := snd (alloc_physical_result P);
                device_claimed := device_claimed (g_pch_thermal_context w) |};
           mmio := mmio w;
           vmm_regions :=
             <[snd (alloc_physical_result P) := kernel_aspace P]> (vmm_regions w);
           events := events w ++ acquire_events P b |}).
Proof.
  intros (Hr & Hd & Hb & Ha) Hst Hv.
  destruct (acquire_status_ok _ _ Hst) as (E1 & E2 & Hrange & E3).
  unfold startup_acquire, pcie_set_irq_mode, pcie_register_irq_handler,
    pcie_enable_mmio, acquire_events, acquired_device.
  run. rewrite !bool_decide_eq_true_2 by done. rewrite Hb. run.
  destruct (Z.eqb_spec (bus_addr b) 0); [done|]. cbn.
  rewrite !(if_error_ok _ _ _ E1). run.
  rewrite !(if_error_ok _ _ _ E2). run.
  unfold range_rejected in Hrange. rewrite Hrange.
  unfold vmm_alloc_physical.
  destruct (alloc_physical_result P) as [st v] eqn:Halloc. cbn [fst snd] in *.
  rewrite (decide_True _ _ E3). cbn. rewrite !(if_error_ok _ _ _ E3). cbn.
  destruct (Z.eqb_spec v NULL); [done|]. cbn.
  rewrite !(decide_True _ _ E1), !(decide_True _ _ E2).
  rewrite E1, E2, E3.
  world_simpl. rewrite <- !app_assoc. reflexivity.
Qed.

Section FurtherStartup.

Context (decode_temp encode_temp : Z -> Z).

Lemma configure_run (P : platform) (d : pcie_device_state_t) (w : world) (a : Z) :
  vmm_regions w !! regs (g_pch_thermal_context w) = Some a ->
  startup_configure decode_temp encode_temp P d w =
    Ok (unmask_irq_status P,
        (if decide (unmask_irq_status P = NO_ERROR)
         then with_irq_masked false d else d),
        {| g_pch_thermal_context := g_pch_thermal_context w;
           mmio := started_registers decode_temp encode_temp (mmio w);
           vmm_regions := vmm_regions w;
           events := events w
                       ++ configure_events decode_temp encode_temp (mmio w)
                            (unmask_irq_status P) |}).
Proof.
  intros Hm.
  unfold startup_configure, regs_load, store_tsel, store_tsc, regs_store,
    pcie_unmask_irq, started_registers, configure_events.
  run. rewrite Hm. cbn. rewrite Hm. run.
  rewrite (threshold_step_run _ _ _ a) by exact Hm. cbn.
  destruct (113 <=? _); cbn; rewrite Hm; cbn; rewrite ?Hm; cbn;
    world_simpl; rewrite <- ?app_assoc; reflexivity.
Qed.

Lemma body_run (P : platform) (d : pcie_device_state_t) (w : world)
    (b : pcie_bar_info_t) :
  startup_entry_ok d w b ->
  acquire_status P b = NO_ERROR ->
  snd (alloc_physical_result P) ≠ NULL ->
  startup_body decode_temp encode_temp P d w =
    Ok (unmask_irq_status P,
        (if decide (unmask_irq_status P = NO_ERROR)
         then started_device d else acquired_device d),
        {| g_pch_thermal_context :=
             {| aspace := kernel_aspace P;
                regs := snd (alloc_physical_result P);
                device_claimed := device_claimed (g_pch_thermal_context w) |};
           mmio := started_registers decode_temp encode_temp (mmio w);
           vmm_regions :=
             <[snd (alloc_physical_result P) := kernel_aspace P]> (vmm_regions w);
           events := events w ++ acquire_events P b
                       ++ configure_events decode_temp encode_temp (mmio w)
                            (unmask_irq_status P) |}).
Proof.
  intros Hentry Hst Hv. unfold startup_body. run.
  rewrite (acquire_run P d w b Hentry Hst Hv). cbn.
  rewrite (if_error_ok NO_ERROR _ _ eq_refl).
  rewrite (configure_run P _ _ (kernel_aspace P)) by apply lookup_insert_eq.
  cbn. unfold started_device. destruct (decide _); rewrite <- app_assoc; reflexivity.
Qed.

Lemma startup_success_inv (P : platform) (d d' : pcie_device_state_t)
    (w w' : world) :
  pch_thermal_startup decode_temp encode_temp P d w = Ok (NO_ERROR, d', w') ->
  ∃ b, startup_entry_ok d w b
     ∧ acquire_status P b = NO_ERROR
     ∧ unmask_irq_status P = NO_ERROR
     ∧ snd (alloc_physical_result P) ≠ NULL
     ∧ d' = started_device d
     ∧ w' = {| g_pch_thermal_context :=
                 {| aspace := kernel_aspace P;
                    regs := snd (alloc_physical_result P);
                    device_claimed := device_claimed (g_pch_thermal_context w) |};
               mmio := started_registers decode_temp encode_temp (mmio w);
               vmm_regions :=
                 <[snd (alloc_physical_result P) := kernel_aspace P]>
                   (vmm_regions w);
               events := events w ++ acquire_events P b
                           ++ configure_events decode_temp encode_temp (mmio w)
                                NO_ERROR |}.
Proof.
  intros Hrun.
  destruct (startup_inv _ _ _ _ _ _ _ _ Hrun) as (d1 & w1 & Hbody & _ & Hsame).
  destruct (Hsame eq_refl) as [-> ->].
  destruct (body_inv _ _ _ _ _ _ _ _ Hbody)
    as (b & Hentry & Hst & _ & _ & _ & _ & _ & _ & Hgood).
  symmetry in Hst. pose proof (startup_status_ok _ _ Hst) as Hacq.
  destruct (Hgood Hacq) as (Hnz & Hv & _).
  assert (Hun : unmask_irq_status P = NO_ERROR).
  { unfold startup_status in Hst. now rewrite (if_error_ok _ _ _ Hacq) in Hst. }
  rewrite Hv in Hnz.
  rewrite (body_run P d w b Hentry Hacq Hnz) in Hbody.
  rewrite (decide_True _ _ Hun), Hun in Hbody.
  injection Hbody as <- <-.
  exists b. repeat split; try done; apply Hentry.
Qed.

End FurtherStartup.

Lemma lor_1_high_bits (t i : Z) :
  0 < i < 8 -> Z.testbit (uint8 (Z.lor t 1)) i = Z.testbit t i.
Proof.
  intros Hi. unfold uint8. rewrite Z.mod_pow2_bits_low by lia.
  rewrite Z.lor_spec.
  replace (Z.testbit 1 i) with false; [apply orb_false_r|].
  symmetry. change 1 with (2 ^ 0). apply Z.pow2_bits_false. lia.
Qed.

Lemma tsel_disabled_high_bits (t i : Z) :
  0 < i < 8 -> Z.testbit (tsel_disabled t) i = Z.testbit t i.
Proof.
  intros Hi. unfold tsel_disabled, uint8. rewrite Z.mod_pow2_bits_low by lia.
  rewrite Z.land_spec.
  replace (Z.testbit (uint32 (Z.lnot 1)) i) with true; [apply andb_true_r|].
  symmetry. unfold uint32. rewrite Z.mod_pow2_bits_low by lia.
  rewrite Z.lnot_spec by lia. apply negb_true_iff.
  change 1 with (2 ^ 0). apply Z.pow2_bits_false. lia.
Qed.

(** X1. When startup returns [NO_ERROR], [registers] is the non-null address
    the memory manager handed back, [address_space] is the kernel address
    space, the claim flag is what it was, and the mappings are those from
    before plus the region based at [registers]. *)
Theorem startup_success_postcondition (decode_temp encode_temp : Z -> Z)
    (P : platform) (d d' : pcie_device_state_t) (w w' : world) :
  pch_thermal_startup decode_temp encode_temp P d w = Ok (NO_ERROR, d', w') ->
  regs (g_pch_thermal_context w) = NULL
  ∧ regs (g_pch_thermal_context w') = snd (alloc_physical_result P)
  ∧ regs (g_pch_thermal_context w') ≠ NULL
  ∧ aspace (g_pch_thermal_context w') = kernel_aspace P
  ∧ device_claimed (g_pch_thermal_context w')
    = device_claimed (g_pch_thermal_context w)
  ∧ vmm_regions w'
    = <[regs (g_pch_thermal_context w') := kernel_aspace P]> (vmm_regions w)
  ∧ window_mapped w'.
Proof.
  intros Hrun.
  destruct (startup_success_inv _ _ _ _ _ _ _ Hrun)
    as (b & (Hz & _) & _ & _ & Hv & _ & ->).
  unfold window_mapped. cbn. repeat split; try done. apply lookup_insert_eq.
Qed.

Lemma startup_success_postcondition_witness :
  ∃ d' w',
    pch_thermal_startup example_decode example_encode example_platform
      example_bound_device (grant example_world) = Ok (NO_ERROR, d', w')
    ∧ regs (g_pch_thermal_context w') = 0xc0200000
    ∧ aspace (g_pch_thermal_context w') = 0xffff0000
    ∧ window_mapped w'.
Proof.
  destruct (startup_returns example_decode example_encode example_platform
              example_bound_device (grant example_world)
              {| bus_addr := 0xfe100000; bar_size := 0x1000 |})
    as (d' & w' & Hrun).
  { repeat split; discriminate. }
  { discriminate. }
  exists d', w'. split; [exact Hrun|].
  destruct (startup_success_postcondition _ _ _ _ _ _ _ Hrun)
    as (_ & Hr & _ & Ha & _ & _ & Hm).
  repeat split; assumption.
Defined.

(** X2. When startup returns [NO_ERROR], bit 0 of [tsel] and bit 0 of [tsc]
    are set and the other seven bits of each are what they were; [ctt] is
    either untouched, or the stored threshold decoded to 113 or more and the
    whole 16-bit register now holds [encode_temp 113]. *)
Theorem startup_success_registers (decode_temp encode_temp : Z -> Z)
    (P : platform) (d d' : pcie_device_state_t) (w w' : world) :
  pch_thermal_startup decode_temp encode_temp P d w = Ok (NO_ERROR, d', w') ->
  Z.testbit (tsel (mmio w')) 0 = true
  ∧ Z.testbit (tsc (mmio w')) 0 = true
  ∧ (∀ i, 0 < i < 8 ->
       Z.testbit (tsel (mmio w')) i = Z.testbit (tsel (mmio w)) i
       ∧ Z.testbit (tsc (mmio w')) i = Z.testbit (tsc (mmio w)) i)
  ∧ (ctt (mmio w') = ctt (mmio w)
       ∧ current_ctt_of decode_temp (ctt (mmio w)) < 113
     ∨ ctt (mmio w') = uint16 (encode_temp 113)
       ∧ 113 <= current_ctt_of decode_temp (ctt (mmio w))).
Proof.
  intros Hrun.
  destruct (startup_success_inv _ _ _ _ _ _ _ Hrun)
    as (b & _ & _ & _ & _ & _ & ->).
  cbn. split; [apply lor_1_bit0|]. split; [apply lor_1_bit0|]. split.
  - intros i Hi. split; apply lor_1_high_bits; exact Hi.
  - destruct (Z.leb_spec 113 (current_ctt_of decode_temp (ctt (mmio w))));
      [right | left]; auto.
Qed.

Lemma startup_success_registers_witness :
  ∃ d' w',
    pch_thermal_startup example_decode example_encode example_platform
      example_bound_device (grant example_world) = Ok (NO_ERROR, d', w')
    ∧ Z.testbit (tsel (mmio w')) 0 = true
    ∧ Z.testbit (tsc (mmio w')) 0 = true
    ∧ ctt (mmio w') = 326.
Proof.
  destruct (startup_returns example_decode example_encode example_platform
              example_bound_device (grant example_world)
              {| bus_addr := 0xfe100000; bar_size := 0x1000 |})
    as (d' & w' & Hrun).
  { repeat split; discriminate. }
  { discriminate. }
  exists d', w'. split; [exact Hrun|].
  destruct (startup_success_registers _ _ _ _ _ _ _ Hrun)
    as (Ht & Hc & _ & [[_ Hlow] | [Hctt _]]).
  - exfalso. revert Hlow. apply Z.le_ngt. apply Z.leb_le. reflexivity.
  - repeat split; assumption.
Defined.

(** X3. When startup returns [NO_ERROR], what it did, in order, is: legacy IRQ
    mode, handler for IRQ 0, mapping of BAR 0 (size rounded up to the page
    size) into the kernel address space, MMIO enable, and only then the
    register stores ([tsel], [ctt] if the threshold is clamped, [tsc]), with
    the unmask of IRQ 0 last. *)
Theorem startup_success_actions (decode_temp encode_temp : Z -> Z)
    (P : platform) (d d' : pcie_device_state_t) (w w' : world) :
  pch_thermal_startup decode_temp encode_temp P d w = Ok (NO_ERROR, d', w') ->
  ∃ b, bar0 d = Some b
     ∧ events w' =
         events w
         ++ [EvSetIrqMode PCIE_IRQ_MODE_LEGACY 1 NO_ERROR;
             EvRegisterIrqHandler 0 NO_ERROR;
             EvVmmAllocPhysical (kernel_aspace P)
               (ROUNDUP (bar_size b) (PAGE_SIZE P)) (bus_addr b) NO_ERROR
               (regs (g_pch_thermal_context w'));
             EvEnableMmio true;
             EvWriteTsel (uint8 (Z.lor (tsel (mmio w)) 1))]
         ++ (if 113 <=? current_ctt_of decode_temp (ctt (mmio w))
             then [EvWriteCtt (uint16 (encode_temp 113))] else [])
         ++ [EvWriteTsc (uint8 (Z.lor (tsc (mmio w)) 1));
             EvUnmaskIrq 0 NO_ERROR].
Proof.
  intros Hrun.
  destruct (startup_success_inv _ _ _ _ _ _ _ Hrun)
    as (b & (_ & _ & Hb & _) & _ & _ & _ & _ & ->).
  exists b. split; [exact Hb|]. cbn. reflexivity.
Qed.

Lemma startup_success_actions_witness :
  ∃ d' w',
    pch_thermal_startup example_decode example_encode example_platform
      example_bound_device (grant example_world) = Ok (NO_ERROR, d', w')
    ∧ events w' =
        [EvSetIrqMode PCIE_IRQ_MODE_LEGACY 1 NO_ERROR;
         EvRegisterIrqHandler 0 NO_ERROR;
         EvVmmAllocPhysical 0xffff0000 0x1000 0xfe100000 NO_ERROR 0xc0200000;
         EvEnableMmio true;
         EvWriteTsel 1; EvWriteCtt 326; EvWriteTsc 1;
         EvUnmaskIrq 0 NO_ERROR].
Proof.
  destruct (startup_returns example_decode example_encode example_platform
              example_bound_device (grant example_world)
              {| bus_addr := 0xfe100000; bar_size := 0x1000 |})
    as (d' & w' & Hrun).
  { repeat split; discriminate. }
  { discriminate. }
  exists d', w'. split; [exact Hrun|].
  destruct (startup_success_actions _ _ _ _ _ _ _ Hrun) as (b & Hb & Hev).
  injection Hb as <-.
  destruct (startup_success_inv _ _ _ _ _ _ _ Hrun)
    as (b0 & _ & _ & _ & _ & _ & Hw').
  rewrite Hev, Hw'. reflexivity.
Defined.

(** ** Startup: assertions and faults *)

Lemma acquire_entry_assert (P : platform) (d : pcie_device_state_t) (w : world) :
  regs (g_pch_thermal_context w) ≠ NULL
  ∨ driver_ctx d ≠ addr_g_pch_thermal_context ->
  startup_acquire P d w = Crash AssertFailed.
Proof.
  intros Hbad. unfold startup_acquire. run.
  case_bool_decide; [|reflexivity].
  case_bool_decide; [|reflexivity].
  destruct Hbad as [Hbad|Hbad]; now destruct Hbad.
Qed.

Lemma acquire_outcome (P : platform) (d : pcie_device_state_t) (w : world)
    (b : pcie_bar_info_t) :
  startup_entry_ok d w b ->
  (acquire_status P b = NO_ERROR
   ∧ snd (alloc_physical_result P) = NULL
   ∧ startup_acquire P d w = Crash AssertFailed)
  ∨ (∃ d1 w1, startup_acquire P d w = Ok (acquire_status P b, d1, w1)).
Proof.
  intros (Hr & Hd & Hb & Ha).
  unfold startup_acquire, pcie_set_irq_mode, pcie_register_irq_handler,
    pcie_enable_mmio, acquire_status, range_rejected.
  run. rewrite !bool_decide_eq_true_2 by done. rewrite Hb. run.
  destruct (Z.eqb_spec (bus_addr b) 0); [done|]. cbn.
  destruct (decide (set_irq_mode_status P = NO_ERROR)) as [E1|E1].
  2:{ rewrite !(decide_True _ _ E1). eauto. }
  rewrite !(if_error_ok _ _ _ E1). run.
  destruct (decide (register_irq_handler_status P = NO_ERROR)) as [E2|E2].
  2:{ rewrite !(decide_True _ _ E2). eauto. }
  rewrite !(if_error_ok _ _ _ E2). run.
  destruct (_ || _); [eauto|].
  unfold vmm_alloc_physical.
  destruct (alloc_physical_result P) as [st v] eqn:Halloc. cbn [fst snd] in *.
  destruct (decide (st = NO_ERROR)) as [E3|E3].
  - rewrite !(if_error_ok _ _ _ E3). cbn.
    destruct (Z.eqb_spec v NULL); cbn; [left; auto | rewrite E3; eauto].
  - rewrite !(decide_True _ _ E3). eauto.
Qed.

Lemma startup_outcome (decode_temp encode_temp : Z -> Z) (P : platform)
    (d : pcie_device_state_t) (w : world) (b : pcie_bar_info_t) :
  startup_entry_ok d w b ->
  (acquire_status P b = NO_ERROR
   ∧ snd (alloc_physical_result P) = NULL
   ∧ pch_thermal_startup decode_temp encode_temp P d w = Crash AssertFailed)
  ∨ (∃ d' w', pch_thermal_startup decode_temp encode_temp P d w
                = Ok (startup_status P b, d', w')).
Proof.
  intros Hentry.
  destruct (acquire_outcome P d w b Hentry)
    as [(Hst & Hnull & Hcrash) | (d0 & w0 & Hacq)].
  { left. split; [exact Hst|]. split; [exact Hnull|].
    unfold pch_thermal_startup, startup_body. run. now rewrite Hcrash. }
  right.
  pose proof (acquire_inv _ _ _ _ _ _ Hacq)
    as (b' & _ & _ & _ & _ & _ & _ & Has & _ & Hfail & Hok).
  assert (Hbody : ∃ d1 w1, startup_body decode_temp encode_temp P d w
                             = Ok (startup_status P b, d1, w1)
            ∧ (regs (g_pch_thermal_context w1) ≠ NULL ->
               is_Some (vmm_regions w1 !! regs (g_pch_thermal_context w1)))).
  { unfold startup_body, startup_status. run. rewrite Hacq.
    destruct (decide (acquire_status P b = NO_ERROR)) as [E|E].
    - rewrite !(if_error_ok _ _ _ E).
      destruct (Hok E) as (Hnz & _ & Hregs).
      assert (Hm : vmm_regions w0 !! regs (g_pch_thermal_context w0)
                   = Some (kernel_aspace P))
        by (rewrite Hregs at 1; apply lookup_insert_eq).
      destruct (configure_returns decode_temp encode_temp P d0 w0 _ Hm)
        as (d1 & w1 & Hcfg).
      exists d1, w1. split; [exact Hcfg|]. intros _.
      apply configure_inv in Hcfg as (_ & _ & _ & _ & Hctx & Hreg & _).
      rewrite Hctx, Hreg, Hm. eauto.
    - rewrite !(decide_True _ _ E). exists d0, w0. split; [reflexivity|].
      intros Hnz. destruct (Hfail E) as [Hz _]. contradiction. }
  destruct Hbody as (d1 & w1 & Hbody & Hmapped).
  unfold pch_thermal_startup, finished. run. rewrite Hbody.
  destruct (decide (startup_status P b = NO_ERROR)) as [E|E].
  - rewrite !(if_error_ok _ _ _ E). eauto.
  - rewrite !(decide_True _ _ E).
    destruct (decide (regs (g_pch_thermal_context w1) = NULL)) as [Hz|Hnz].
    + rewrite (cleanup_regs_absent _ _ Hz). cbn. eauto.
    + destruct (Hmapped Hnz) as [a Ha].
      rewrite (cleanup_regs_mapped _ _ a Hnz Ha). cbn. eauto.
Qed.

Lemma startup_entry_cases (d : pcie_device_state_t) (w : world) :
  (regs (g_pch_thermal_context w) ≠ NULL
   ∨ driver_ctx d ≠ addr_g_pch_thermal_context)
  ∨ (bar0 d = None ∨ (∃ b, bar0 d = Some b ∧ bus_addr b = 0))
  ∨ (∃ b, startup_entry_ok d w b).
Proof.
  destruct (decide (regs (g_pch_thermal_context w) = NULL)) as [Hr|Hr]; [|auto].
  destruct (decide (driver_ctx d = addr_g_pch_thermal_context)) as [Hd|Hd]; [|auto].
  right. destruct (bar0 d) as [b|] eqn:Hb; [|auto].
  destruct (decide (bus_addr b = 0)) as [Ha|Ha]; [left; eauto|].
  right. exists b. repeat split; assumption.
Qed.

(** X4. Whatever the device, the platform and the state it is called in,
    startup never faults on a register access: it either returns a status or
    stops on one of its assertions. *)
Theorem startup_never_page_faults (decode_temp encode_temp : Z -> Z)
    (P : platform) (d : pcie_device_state_t) (w : world) :
  pch_thermal_startup decode_temp encode_temp P d w = Crash AssertFailed
  ∨ (∃ s d' w', pch_thermal_startup decode_temp encode_temp P d w = Ok (s, d', w')).
Proof.
  destruct (startup_entry_cases d w) as [Hbad | [Hbar | [b Hentry]]].
  - left. unfold pch_thermal_startup, startup_body. run.
    now rewrite (acquire_entry_assert P d w Hbad).
  - left. unfold pch_thermal_startup, startup_body. run.
    now rewrite (acquire_bar_assert P d w Hbar).
  - destruct (startup_outcome decode_temp encode_temp P d w b Hentry)
      as [(_ & _ & Hcrash) | (d' & w' & Hrun)]; [left | right]; eauto.
Qed.

(** X5. Startup on a state whose [registers] is already set, or for a device
    not bound to this driver's context, stops on an assertion; in particular
    a second startup right after a successful one does, whatever the device
    and the platform. *)
Theorem startup_rejects_remapping (decode_temp encode_temp : Z -> Z)
    (P : platform) (d : pcie_device_state_t) (w : world) :
  (regs (g_pch_thermal_context w) ≠ NULL
   ∨ driver_ctx d ≠ addr_g_pch_thermal_context ->
   pch_thermal_startup decode_temp encode_temp P d w = Crash AssertFailed)
  ∧ (∀ d' w' P2 d2,
       pch_thermal_startup decode_temp encode_temp P d w = Ok (NO_ERROR, d', w') ->
       pch_thermal_startup decode_temp encode_temp P2 d2 w' = Crash AssertFailed).
Proof.
  assert (Hgen : ∀ P0 d0 w0,
            regs (g_pch_thermal_context w0) ≠ NULL
            ∨ driver_ctx d0 ≠ addr_g_pch_thermal_context ->
            pch_thermal_startup decode_temp encode_temp P0 d0 w0
              = Crash AssertFailed).
  { intros P0 d0 w0 Hbad. unfold pch_thermal_startup, startup_body. run.
    now rewrite (acquire_entry_assert P0 d0 w0 Hbad). }
  split; [apply Hgen|].
  intros d' w' P2 d2 Hrun. apply Hgen. left.
  destruct (startup_success_inv _ _ _ _ _ _ _ Hrun)
    as (b & _ & _ & _ & Hv & _ & ->).
  exact Hv.
Qed.

Lemma startup_rejects_remapping_witness :
  pch_thermal_startup example_decode example_encode example_platform
    example_bound_device (mapped_world 340) = Crash AssertFailed.
Proof.
  apply (proj1 (startup_rejects_remapping example_decode example_encode
                  example_platform example_bound_device (mapped_world 340))).
  left. discriminate.
Defined.

(** X6. If every step up to the mapping succeeds and the memory manager
    reports success but hands back the null address, startup stops on
    [DEBUG_ASSERT(vaddr)]: it never stores a null pointer as a successful
    mapping. *)
Theorem startup_null_mapping_is_fatal (decode_temp encode_temp : Z -> Z)
    (P : platform) (d : pcie_device_state_t) (w : world) (b : pcie_bar_info_t) :
  startup_entry_ok d w b ->
  set_irq_mode_status P = NO_ERROR ->
  register_irq_handler_status P = NO_ERROR ->
  bus_addr b <= paddr_max P ->
  ROUNDUP (bar_size b) (PAGE_SIZE P) <= size_max P ->
  alloc_physical_result P = (NO_ERROR, NULL) ->
  pch_thermal_startup decode_temp encode_temp P d w = Crash AssertFailed.
Proof.
  intros Hentry E1 E2 Hp Hs Halloc.
  assert (Hst : acquire_status P b = NO_ERROR).
  { unfold acquire_status, range_rejected.
    rewrite (if_error_ok _ _ _ E1), (if_error_ok _ _ _ E2).
    replace (paddr_max P <? bus_addr b) with false by (symmetry; apply Z.ltb_ge; lia).
    replace (size_max P <? ROUNDUP (bar_size b) (PAGE_SIZE P)) with false
      by (symmetry; apply Z.ltb_ge; lia).
    cbn. now rewrite Halloc. }
  destruct (startup_outcome decode_temp encode_temp P d w b Hentry)
    as [(_ & _ & Hcrash) | (d' & w' & Hrun)]; [exact Hcrash|].
  exfalso. unfold startup_status in Hrun. rewrite (if_error_ok _ _ _ Hst) in Hrun.
  destruct (startup_inv _ _ _ _ _ _ _ _ Hrun) as (d1 & w1 & Hbody & _).
  destruct (body_inv _ _ _ _ _ _ _ _ Hbody)
    as (b' & (_ & _ & Hb' & _) & _ & _ & _ & _ & _ & _ & _ & Hgood).
  destruct Hentry as (_ & _ & Hb & _).
  assert (b' = b) by congruence. subst b'.
  destruct (Hgood Hst) as (Hnz & Hv & _).
  rewrite Hv, Halloc in Hnz. now apply Hnz.
Qed.

Lemma startup_null_mapping_is_fatal_witness :
  pch_thermal_startup example_decode example_encode example_platform_null_mapping
    example_bound_device (grant example_world) = Crash AssertFailed.
Proof.
  apply (startup_null_mapping_is_fatal example_decode example_encode
           example_platform_null_mapping example_bound_device
           (grant example_world)
           {| bus_addr := 0xfe100000; bar_size := 0x1000 |}).
  - repeat split; discriminate.
  - reflexivity.
  - reflexivity.
  - cbn. lia.
  - apply Z.leb_le. reflexivity.
  - reflexivity.
Defined.

(** ** Startup: the failure paths *)

(** X7. When the first failing step is the IRQ-mode configuration, the
    handler registration, the address-range check or the mapping itself,
    startup returns that step's status with the device registers and the
    mappings exactly as they were before the call, and the context torn
    down. *)
Theorem startup_early_failure (decode_temp encode_temp : Z -> Z)
    (P : platform) (d : pcie_device_state_t) (w : world) (b : pcie_bar_info_t) :
  startup_entry_ok d w b ->
  acquire_status P b ≠ NO_ERROR ->
  ∃ d' w',
    pch_thermal_startup decode_temp encode_temp P d w
      = Ok (acquire_status P b, d', w')
    ∧ g_pch_thermal_context w' = torn_down (g_pch_thermal_context w)
    ∧ mmio w' = mmio w
    ∧ vmm_regions w' = vmm_regions w.
Proof.
  intros Hentry Hfail.
  destruct (startup_outcome decode_temp encode_temp P d w b Hentry)
    as [(Hst & _) | (d' & w' & Hrun)]; [contradiction|].
  unfold startup_status in Hrun. rewrite (decide_True _ _ Hfail) in Hrun.
  exists d', w'. split; [exact Hrun|].
  destruct (startup_inv _ _ _ _ _ _ _ _ Hrun) as (d1 & w1 & Hbody & Hclean & _).
  specialize (Hclean Hfail).
  destruct (body_inv _ _ _ _ _ _ _ _ Hbody)
    as (b' & (_ & _ & Hb' & _) & _ & _ & _ & _ & Hcl & _ & Hbad & _).
  destruct Hentry as (Hz & _ & Hb & _).
  assert (b' = b) by congruence. subst b'.
  destruct (Hbad Hfail) as (Hz1 & Hregs & Hmm).
  rewrite (cleanup_regs_absent _ _ Hz1) in Hclean.
  injection Hclean as _ <-. cbn. unfold torn_down. rewrite Hcl.
  repeat split; assumption.
Qed.

Lemma startup_early_failure_witness :
  ∃ d' w',
    pch_thermal_startup example_decode example_encode example_platform_no_mapping
      example_bound_device (grant example_world) = Ok (ERR_OTHER (-4), d', w')
    ∧ mmio w' = mmio example_world
    ∧ vmm_regions w' = ∅.
Proof.
  destruct (startup_early_failure example_decode example_encode
              example_platform_no_mapping example_bound_device
              (grant example_world)
              {| bus_addr := 0xfe100000; bar_size := 0x1000 |})
    as (d' & w' & Hrun & _ & Hmm & Hregs).
  { repeat split; discriminate. }
  { discriminate. }
  exists d', w'. split; [exact Hrun|]. split; assumption.
Defined.

(** X8. When the bus address of BAR 0 exceeds what [paddr_t] can hold, or its
    rounded-up size what [size_t] can hold, startup returns
    [ERR_INVALID_ARGS] without asking for a mapping and without touching a
    device register: after the two IRQ calls the only further action is
    teardown's interrupt disable. *)
Theorem startup_range_check (decode_temp encode_temp : Z -> Z)
    (P : platform) (d : pcie_device_state_t) (w : world) (b : pcie_bar_info_t) :
  startup_entry_ok d w b ->
  set_irq_mode_status P = NO_ERROR ->
  register_irq_handler_status P = NO_ERROR ->
  paddr_max P < bus_addr b ∨ size_max P < ROUNDUP (bar_size b) (PAGE_SIZE P) ->
  ∃ d',
    pch_thermal_startup decode_temp encode_temp P d w =
      Ok (ERR_INVALID_ARGS, d',
          {| g_pch_thermal_context := torn_down (g_pch_thermal_context w);
             mmio := mmio w;
             vmm_regions := vmm_regions w;
             events := events w
                         ++ [EvSetIrqMode PCIE_IRQ_MODE_LEGACY 1 NO_ERROR;
                             EvRegisterIrqHandler 0 NO_ERROR;
                             EvSetIrqModeDisabled] |}).
Proof.
  intros (Hr & Hd & Hb & Ha) E1 E2 Hrange.
  assert (Hrej : (paddr_max P <? bus_addr b)
                 || (size_max P <? ROUNDUP (bar_size b) (PAGE_SIZE P)) = true).
  { apply orb_true_iff. destruct Hrange; [left | right]; now apply Z.ltb_lt. }
  assert (Hacq : startup_acquire P d w =
            Ok (ERR_INVALID_ARGS,
                with_irq_handler true (with_irq_mode PCIE_IRQ_MODE_LEGACY d),
                {| g_pch_thermal_context :=
                     {| aspace := kernel_aspace P;
                        regs := regs (g_pch_thermal_context w);
                        device_claimed := device_claimed (g_pch_thermal_context w) |};
                   mmio := mmio w;
                   vmm_regions := vmm_regions w;
                   events := events w
                               ++ [EvSetIrqMode PCIE_IRQ_MODE_LEGACY 1 NO_ERROR;
                                   EvRegisterIrqHandler 0 NO_ERROR] |})).
  { unfold startup_acquire, pcie_set_irq_mode, pcie_register_irq_handler.
    run. rewrite !bool_decide_eq_true_2 by done. rewrite Hb. run.
    destruct (Z.eqb_spec (bus_addr b) 0); [done|]. cbn.
    rewrite !(if_error_ok _ _ _ E1). run.
    rewrite !(if_error_ok _ _ _ E2). run.
    rewrite Hrej. run.
    rewrite !(decide_True _ _ E1), !(decide_True _ _ E2), E1, E2.
    world_simpl. rewrite <- !app_assoc. reflexivity. }
  unfold pch_thermal_startup, startup_body, finished. run. rewrite Hacq. cbn.
  repeat (rewrite (decide_True (P := ERR_INVALID_ARGS ≠ NO_ERROR)) by discriminate;
          run).
  rewrite cleanup_regs_absent by exact Hr. cbn.
  eexists. unfold torn_down. cbn. rewrite <- !app_assoc. reflexivity.
Qed.

Lemma startup_range_check_witness :
  ∃ d' w',
    pch_thermal_startup example_decode example_encode example_platform_narrow
      example_bound_device (grant example_world) = Ok (ERR_INVALID_ARGS, d', w')
    ∧ events w' = [EvSetIrqMode PCIE_IRQ_MODE_LEGACY 1 NO_ERROR;
                   EvRegisterIrqHandler 0 NO_ERROR;
                   EvSetIrqModeDisabled]
    ∧ vmm_regions w' = ∅.
Proof.
  destruct (startup_range_check example_decode example_encode
              example_platform_narrow example_bound_device (grant example_world)
              {| bus_addr := 0xfe100000; bar_size := 0x1000 |})
    as (d' & Hrun).
  { repeat split; discriminate. }
  { reflexivity. }
  { reflexivity. }
  { left. reflexivity. }
  eexists _, _. split; [exact Hrun|]. split; reflexivity.
Defined.

(** X9. When every step up to the mapping succeeds and the unmask of IRQ 0
    fails, startup returns the unmask status after teardown: the context is
    torn down, the sensor-enable bit is clear again and the region just mapped
    is released, but the threshold stays as startup set it and the power-off
    bit of [tsc] stays set. The actions are those of a successful startup
    followed by teardown's three. *)
Theorem startup_unmask_failure (decode_temp encode_temp : Z -> Z)
    (P : platform) (d : pcie_device_state_t) (w : world) (b : pcie_bar_info_t) :
  startup_entry_ok d w b ->
  acquire_status P b = NO_ERROR ->
  snd (alloc_physical_result P) ≠ NULL ->
  unmask_irq_status P ≠ NO_ERROR ->
  ∃ d' w',
    pch_thermal_startup decode_temp encode_temp P d w
      = Ok (unmask_irq_status P, d', w')
    ∧ g_pch_thermal_context w' = torn_down (g_pch_thermal_context w)
    ∧ Z.testbit (tsel (mmio w')) 0 = false
    ∧ Z.testbit (tsc (mmio w')) 0 = true
    ∧ ctt (mmio w') = (if 113 <=? current_ctt_of decode_temp (ctt (mmio w))
                       then uint16 (encode_temp 113) else ctt (mmio w))
    ∧ vmm_regions w' = delete (snd (alloc_physical_result P)) (vmm_regions w)
    ∧ events w' =
        events w ++ acquire_events P b
        ++ configure_events decode_temp encode_temp (mmio w) (unmask_irq_status P)
        ++ [EvSetIrqModeDisabled;
            EvWriteTsel (tsel_disabled (uint8 (Z.lor (tsel (mmio w)) 1)));
            EvVmmFreeRegion (kernel_aspace P) (snd (alloc_physical_result P))].
Proof.
  intros Hentry Hst Hv Hun.
  unfold pch_thermal_startup, finished. run.
  rewrite (body_run decode_temp encode_temp P d w b Hentry Hst Hv).
  rewrite !(decide_False _ _ Hun). cbn. rewrite !(decide_True _ _ Hun). run.
  rewrite (cleanup_regs_mapped _ _ (kernel_aspace P)) by
    (try exact Hv; apply lookup_insert_eq).
  cbn. rewrite decide_True by reflexivity.
  eexists _, _. split; [reflexivity|]. cbn.
  split; [reflexivity|]. split; [apply tsel_disabled_bit0|].
  split; [apply lor_1_bit0|]. split; [reflexivity|].
  split; [apply delete_insert_eq|].
  unfold quiesce_events. cbn. rewrite decide_True by exact Hv.
  unfold acquire_events, configure_events.
  repeat first [rewrite <- app_assoc | progress cbn [app]]. reflexivity.
Qed.

Lemma startup_unmask_failure_witness :
  ∃ d' w',
    pch_thermal_startup example_decode example_encode example_platform_no_unmask
      example_bound_device (grant example_world) = Ok (ERR_OTHER (-2), d', w')
    ∧ Z.testbit (tsel (mmio w')) 0 = false
    ∧ Z.testbit (tsc (mmio w')) 0 = true
    ∧ ctt (mmio w') = 326.
Proof.
  destruct (startup_unmask_failure example_decode example_encode
              example_platform_no_unmask example_bound_device
              (grant example_world)
              {| bus_addr := 0xfe100000; bar_size := 0x1000 |})
    as (d' & w' & Hrun & _ & Ht & Hc & Hctt & _).
  { repeat split; discriminate. }
  { reflexivity. }
  { discriminate. }
  { discriminate. }
  exists d', w'. split; [exact Hrun|]. repeat split; assumption.
Defined.

(** ** Teardown, shutdown and release *)

(** X10. Teardown never writes [ctt] or [tsc], and of [tsel] it changes bit 0
    only: whenever it returns, [ctt] and [tsc] are what they were and so are
    bits 1 to 7 of [tsel]; with [registers] null, [tsel] is untouched
    altogether. *)
Theorem teardown_register_effect (d d' : option pcie_device_state_t)
    (w w' : world) :
  pch_thermal_cleanup d w = Ok (d', w') ->
  ctt (mmio w') = ctt (mmio w)
  ∧ tsc (mmio w') = tsc (mmio w)
  ∧ (∀ i, 0 < i < 8 ->
       Z.testbit (tsel (mmio w')) i = Z.testbit (tsel (mmio w)) i)
  ∧ (regs (g_pch_thermal_context w) = NULL -> tsel (mmio w') = tsel (mmio w)).
Proof.
  intros Hrun.
  destruct (cleanup_returns _ _ _ _ Hrun) as (_ & _ & _ & Hz & Hnz).
  destruct (decide (regs (g_pch_thermal_context w) = NULL)) as [E|E].
  - destruct (Hz E) as [-> _]. repeat split; auto.
  - destruct (Hnz E) as (_ & Ht & Hc & Hs & _).
    split; [exact Hc|]. split; [exact Hs|]. split; [|contradiction].
    intros i Hi. rewrite Ht. now apply tsel_disabled_high_bits.
Qed.

Lemma teardown_register_effect_witness :
  ∃ d' w',
    pch_thermal_cleanup (Some example_device) example_busy_world = Ok (d', w')
    ∧ ctt (mmio w') = 326
    ∧ tsc (mmio w') = 0x81
    ∧ Z.testbit (tsel (mmio w')) 7 = true.
Proof.
  assert (Hp : regs (g_pch_thermal_context example_busy_world) ≠ NULL)
    by discriminate.
  assert (Hm : vmm_regions example_busy_world
                 !! regs (g_pch_thermal_context example_busy_world)
               = Some 0xffff0000) by apply lookup_singleton_eq.
  pose proof (cleanup_regs_mapped (Some example_device) _ _ Hp Hm) as Hrun.
  eexists _, _. split; [exact Hrun|].
  destruct (teardown_register_effect _ _ _ _ Hrun) as (Hc & Hs & Hb & _).
  split; [exact Hc|]. split; [exact Hs|].
  rewrite (Hb 7) by lia. reflexivity.
Defined.

Lemma release_assert (p : void_ptr) (w : world) :
  p ≠ addr_g_pch_thermal_context ∨ regs (g_pch_thermal_context w) ≠ NULL ->
  pch_thermal_release p w = Crash AssertFailed.
Proof.
  intros Hbad. unfold pch_thermal_release. run.
  case_bool_decide; [|reflexivity]. run.
  case_bool_decide; [|reflexivity].
  destruct Hbad as [Hbad|Hbad]; now destruct Hbad.
Qed.

(** X11. Release stops on an assertion when it is handed anything but the
    address of the global context, or while [registers] is still set; so a
    release that follows a successful startup without a shutdown in between
    is fatal, whatever handle it is given. *)
Theorem release_requires_shutdown (p : void_ptr) (w : world) :
  (p ≠ addr_g_pch_thermal_context ∨ regs (g_pch_thermal_context w) ≠ NULL ->
   pch_thermal_release p w = Crash AssertFailed)
  ∧ (∀ decode_temp encode_temp P d d' w0,
       pch_thermal_startup decode_temp encode_temp P d w0 = Ok (NO_ERROR, d', w) ->
       pch_thermal_release p w = Crash AssertFailed).
Proof.
  split; [apply release_assert|].
  intros decode_temp encode_temp P d d' w0 Hrun. apply release_assert. right.
  destruct (startup_success_inv _ _ _ _ _ _ _ Hrun)
    as (b & _ & _ & _ & Hv & _ & ->).
  exact Hv.
Qed.

Lemma release_requires_shutdown_witness :
  pch_thermal_release addr_g_pch_thermal_context (mapped_world 340)
    = Crash AssertFailed.
Proof.
  apply (proj1 (release_requires_shutdown addr_g_pch_thermal_context
                  (mapped_world 340))).
  right. discriminate.
Defined.

Lemma startup_failure_inv (decode_temp encode_temp : Z -> Z) (P : platform)
    (d d' : pcie_device_state_t) (w w' : world) (s : status_t) :
  pch_thermal_startup decode_temp encode_temp P d w = Ok (s, d', w') ->
  s ≠ NO_ERROR ->
  regs (g_pch_thermal_context w') = NULL
  ∧ aspace (g_pch_thermal_context w') = NULL
  ∧ device_claimed (g_pch_thermal_context w')
    = device_claimed (g_pch_thermal_context w)
  ∧ driver_ctx d' = addr_g_pch_thermal_context.
Proof.
  intros Hrun Hfail.
  destruct (startup_inv _ _ _ _ _ _ _ _ Hrun) as (d1 & w1 & Hbody & Hclean & _).
  specialize (Hclean Hfail).
  destruct (body_inv _ _ _ _ _ _ _ _ Hbody)
    as (b & (_ & Hd & _) & _ & Hd1 & _ & _ & Hcl & _).
  destruct (cleanup_returns _ _ _ _ Hclean) as (Hd' & Hctx & _).
  rewrite Hctx. cbn. repeat split; try done.
  injection Hd' as ->. cbn. congruence.
Qed.

(** X12. After a startup that returned a failure nothing is left to undo:
    release (with the context's address) returns and leaves exactly the
    initial context, after which any supported device is granted the claim
    again; and a shutdown called on that state all the same returns with the
    context, the device registers and the mappings unchanged. *)
Theorem failed_startup_recovery (decode_temp encode_temp : Z -> Z)
    (P : platform) (d d' : pcie_device_state_t) (w w' : world) (s : status_t) :
  pch_thermal_startup decode_temp encode_temp P d w = Ok (s, d', w') ->
  s ≠ NO_ERROR ->
  (∃ w2, pch_thermal_release addr_g_pch_thermal_context w' = Ok (tt, w2)
       ∧ g_pch_thermal_context w2 = initial_context
       ∧ mmio w2 = mmio w' ∧ vmm_regions w2 = vmm_regions w'
       ∧ ∀ dev, supported dev ->
           pch_thermal_probe dev w2 = Ok (addr_g_pch_thermal_context, grant w2))
  ∧ (∃ d3 w3, pch_thermal_shutdown d' w' = Ok (d3, w3)
       ∧ g_pch_thermal_context w3 = g_pch_thermal_context w'
       ∧ mmio w3 = mmio w' ∧ vmm_regions w3 = vmm_regions w').
Proof.
  intros Hrun Hfail.
  destruct (startup_failure_inv _ _ _ _ _ _ _ _ Hrun Hfail) as (Hz & Ha & _ & Hd).
  split.
  - rewrite (release_torn_down w' Hz). eexists. split; [reflexivity|]. cbn.
    rewrite Hz, Ha. repeat split.
    intros dev Hsup. rewrite probe_unclaimed by reflexivity.
    apply supported_scan in Hsup. now rewrite Hsup.
  - unfold pch_thermal_shutdown. run.
    rewrite bool_decide_eq_true_2 by done.
    rewrite (cleanup_regs_absent _ _ Hz). cbn.
    eexists _, _. split; [reflexivity|]. cbn. unfold torn_down.
    destruct (g_pch_thermal_context w') as [a r c]. cbn in *. subst. auto.
Qed.

Lemma failed_startup_recovery_witness :
  ∃ d' w' w2,
    pch_thermal_startup example_decode example_encode example_platform_no_mapping
      example_bound_device (grant example_world) = Ok (ERR_OTHER (-4), d', w')
    ∧ pch_thermal_release addr_g_pch_thermal_context w' = Ok (tt, w2)
    ∧ g_pch_thermal_context w2 = initial_context.
Proof.
  destruct (startup_returns example_decode example_encode
              example_platform_no_mapping example_bound_device
              (grant example_world)
              {| bus_addr := 0xfe100000; bar_size := 0x1000 |})
    as (d' & w' & Hrun).
  { repeat split; discriminate. }
  { discriminate. }
  assert (Hfail : ERR_OTHER (-4) ≠ NO_ERROR) by discriminate.
  destruct (failed_startup_recovery _ _ _ _ _ _ _ _ Hrun Hfail)
    as ((w2 & Hrel & Hctx & _) & _).
  exists d', w', w2. repeat split; assumption.
Defined.

(** X14. Shutdown has three outcomes. For a device not bound to this
    driver's context it stops on its assertion. For a bound device, if
    [registers] is set but is not the base of a mapped region, the store to
    [tsel] faults. Otherwise it returns with the context torn down. *)
Theorem shutdown_outcomes (d : pcie_device_state_t) (w : world) :
  (driver_ctx d ≠ addr_g_pch_thermal_context ->
   pch_thermal_shutdown d w = Crash AssertFailed)
  ∧ (driver_ctx d = addr_g_pch_thermal_context ->
     regs (g_pch_thermal_context w) ≠ NULL ->
     vmm_regions w !! regs (g_pch_thermal_context w) = None ->
     pch_thermal_shutdown d w = Crash PageFault)
  ∧ (driver_ctx d = addr_g_pch_thermal_context ->
     registers_valid w ->
     ∃ w', pch_thermal_shutdown d w
             = Ok (with_irq_mode PCIE_IRQ_MODE_DISABLED d, w')
           ∧ g_pch_thermal_context w' = torn_down (g_pch_thermal_context w)).
Proof.
  unfold pch_thermal_shutdown. split; [|split].
  - intros Hd. run. rewrite bool_decide_eq_false_2 by congruence. reflexivity.
  - intros Hd Hnz Hm. run. rewrite bool_decide_eq_true_2 by done.
    now rewrite (cleanup_regs_unmapped _ _ Hnz Hm).
  - intros Hd Hvalid. run. rewrite bool_decide_eq_true_2 by done.
    destruct (decide (regs (g_pch_thermal_context w) = NULL)) as [Hz|Hnz].
    + rewrite (cleanup_regs_absent _ _ Hz). cbn. eauto.
    + destruct (Hvalid Hnz) as [a Ha].
      rewrite (cleanup_regs_mapped _ _ a Hnz Ha). cbn. eauto.
Qed.

Lemma shutdown_outcomes_witness :
  pch_thermal_shutdown example_device (mapped_world 340) = Crash AssertFailed
  ∧ pch_thermal_shutdown example_bound_device
      (with_regions ∅ (mapped_world 340)) = Crash PageFault
  ∧ ∃ w', pch_thermal_shutdown example_bound_device (mapped_world 340)
            = Ok (with_irq_mode PCIE_IRQ_MODE_DISABLED example_bound_device, w')
          ∧ g_pch_thermal_context w'
            = {| aspace := NULL; regs := NULL; device_claimed := true |}.
Proof.
  split; [|split].
  - apply (proj1 (shutdown_outcomes example_device (mapped_world 340))).
    discriminate.
  - apply (proj1 (proj2 (shutdown_outcomes example_bound_device
                           (with_regions ∅ (mapped_world 340))))).
    + reflexivity.
    + discriminate.
    + apply lookup_empty.
  - apply (proj2 (proj2 (shutdown_outcomes example_bound_device
                           (mapped_world 340)))).
    + reflexivity.
    + intros _. exists 0xffff0000. apply lookup_singleton_eq.
Defined.

(** ** Sequences of calls *)

Lemma run_entries_cons (decode_temp encode_temp : Z -> Z) (e : entry_point)
    (es : list entry_point) (w w' : world) :
  run_entries decode_temp encode_temp (e :: es) w = Ok (tt, w') ->
  ∃ w1, run_entry decode_temp encode_temp e w = Ok (tt, w1)
      ∧ run_entries decode_temp encode_temp es w1 = Ok (tt, w').
Proof.
  cbn [run_entries]. intros H. run_in H.
  destruct (run_entry decode_temp encode_temp e w) as [|[[] w1]]; [discriminate|].
  exists w1. split; [reflexivity | exact H].
Qed.

Lemma startup_keeps_claim (decode_temp encode_temp : Z -> Z) (P : platform)
    (d d' : pcie_device_state_t) (w w' : world) (s : status_t) :
  pch_thermal_startup decode_temp encode_temp P d w = Ok (s, d', w') ->
  device_claimed (g_pch_thermal_context w')
  = device_claimed (g_pch_thermal_context w).
Proof.
  intros Hrun.
  destruct (startup_inv _ _ _ _ _ _ _ _ Hrun) as (d1 & w1 & Hbody & Hbad & Hgood).
  destruct (body_inv _ _ _ _ _ _ _ _ Hbody) as (b & _ & _ & _ & _ & _ & Hcl & _).
  destruct (decide (s = NO_ERROR)) as [E|E].
  - destruct (Hgood E) as [_ ->]. exact Hcl.
  - destruct (cleanup_returns _ _ _ _ (Hbad E)) as (_ & -> & _). exact Hcl.
Qed.

Lemma entry_claim (decode_temp encode_temp : Z -> Z) (e : entry_point)
    (w w' : world) :
  run_entry decode_temp encode_temp e w = Ok (tt, w') ->
  (is_release e = false ->
   device_claimed (g_pch_thermal_context w) = true ->
   device_claimed (g_pch_thermal_context w') = true)
  ∧ (is_probe e = false ->
     device_claimed (g_pch_thermal_context w) = false ->
     device_claimed (g_pch_thermal_context w') = false).
Proof.
  intros Hrun. destruct e as [d|P d|d|p]; cbn in Hrun; run_in Hrun.
  - destruct (pch_thermal_probe d w) as [|[p w1]] eqn:Hp; [discriminate|].
    injection Hrun as <-. split; [|discriminate].
    intros _ Hc. rewrite (probe_claimed _ _ Hc) in Hp. now injection Hp as _ <-.
  - destruct (pch_thermal_startup _ _ P d w) as [|[[s d1] w1]] eqn:Hs;
      [discriminate|].
    injection Hrun as <-. rewrite (startup_keeps_claim _ _ _ _ _ _ _ _ Hs). auto.
  - unfold pch_thermal_shutdown in Hrun. run_in Hrun.
    case_bool_decide; [|discriminate].
    destruct (pch_thermal_cleanup (Some d) w) as [|[d1 w1]] eqn:Hc; [discriminate|].
    cbn in Hrun. injection Hrun as <-.
    destruct (cleanup_returns _ _ _ _ Hc) as (_ & -> & _). cbn. auto.
  - unfold pch_thermal_release in Hrun. run_in Hrun.
    case_bool_decide; [|discriminate].
    case_bool_decide; [|discriminate].
    injection Hrun as <-. cbn. split; [discriminate | auto].
Qed.

(** X13. The claim flag changes hands in two places only. Along any sequence
    of entry-point calls that all return, with any devices, platforms and
    handles: if no call is a release, a claim that is held stays held; if no
    call is a probe, a claim that is free stays free. *)
Theorem claim_changes_only_at_probe_and_release
    (decode_temp encode_temp : Z -> Z) (es : list entry_point) (w w' : world) :
  run_entries decode_temp encode_temp es w = Ok (tt, w') ->
  (existsb is_release es = false ->
   device_claimed (g_pch_thermal_context w) = true ->
   device_claimed (g_pch_thermal_context w') = true)
  ∧ (existsb is_probe es = false ->
     device_claimed (g_pch_thermal_context w) = false ->
     device_claimed (g_pch_thermal_context w') = false).
Proof.
  revert w. induction es as [|e es IH]; intros w Hrun.
  - cbn in Hrun. run_in Hrun. injection Hrun as <-. auto.
  - destruct (run_entries_cons _ _ _ _ _ _ Hrun) as (w1 & He & Hes).
    destruct (entry_claim _ _ _ _ _ He) as [Hkeep Hfree].
    destruct (IH w1 Hes) as [IHkeep IHfree].
    cbn [existsb]. split.
    + intros Hno Hc. apply orb_false_iff in Hno as [Hne Hnes]. auto.
    + intros Hno Hc. apply orb_false_iff in Hno as [Hne Hnes]. auto.
Qed.

Lemma claim_changes_only_at_probe_and_release_witness :
  ∃ w',
    run_entries example_decode example_encode
      [CallStartup example_platform example_bound_device;
       CallProbe example_device;
       CallShutdown example_bound_device]
      (grant example_world) = Ok (tt, w')
    ∧ device_claimed (g_pch_thermal_context w') = true.
Proof.
  assert (Hrun : ∃ w',
            run_entries example_decode example_encode
              [CallStartup example_platform example_bound_device;
               CallProbe example_device;
               CallShutdown example_bound_device]
              (grant example_world) = Ok (tt, w')).
  { eexists. vm_compute. reflexivity. }
  destruct Hrun as [w' Hrun]. exists w'. split; [exact Hrun|].
  apply (proj1 (claim_changes_only_at_probe_and_release _ _ _ _ _ Hrun));
    reflexivity.
Defined.

Lemma startup_result_valid (decode_temp encode_temp : Z -> Z) (P : platform)
    (d d' : pcie_device_state_t) (w w' : world) (s : status_t) :
  pch_thermal_startup decode_temp encode_temp P d w = Ok (s, d', w') ->
  registers_valid w'.
Proof.
  intros Hrun. unfold registers_valid.
  destruct (decide (s = NO_ERROR)) as [->|E].
  - destruct (startup_success_inv _ _ _ _ _ _ _ Hrun)
      as (b & _ & _ & _ & _ & _ & ->).
    cbn. intros _. rewrite lookup_insert_eq. eauto.
  - destruct (startup_failure_inv _ _ _ _ _ _ _ _ Hrun E) as (Hz & _).
    intros Hnz. contradiction.
Qed.

Lemma entry_safe (decode_temp encode_temp : Z -> Z) (e : entry_point) (w : world) :
  registers_valid w ->
  run_entry decode_temp encode_temp e w = Crash AssertFailed
  ∨ (∃ w', run_entry decode_temp encode_temp e w = Ok (tt, w')
         ∧ registers_valid w').
Proof.
  intros Hvalid. destruct e as [d|P d|d|p]; cbn [run_entry]; run.
  - right. destruct (device_claimed (g_pch_thermal_context w)) eqn:Hc.
    + rewrite (probe_claimed _ _ Hc). eauto.
    + rewrite (probe_unclaimed _ _ Hc). destruct (_ && _); eauto.
  - destruct (startup_entry_cases d w) as [Hbad | [Hbar | [b Hentry]]].
    + left. unfold pch_thermal_startup, startup_body. run.
      now rewrite (acquire_entry_assert P d w Hbad).
    + left. unfold pch_thermal_startup, startup_body. run.
      now rewrite (acquire_bar_assert P d w Hbar).
    + destruct (startup_outcome decode_temp encode_temp P d w b Hentry)
        as [(_ & _ & Hcrash) | (d' & w' & Hrun)].
      * left. now rewrite Hcrash.
      * right. rewrite Hrun. eexists. split; [reflexivity|].
        exact (startup_result_valid _ _ _ _ _ _ _ _ Hrun).
  - unfold pch_thermal_shutdown. run. case_bool_decide; [|now left].
    right. destruct (decide (regs (g_pch_thermal_context w) = NULL)) as [Hz|Hnz].
    + rewrite (cleanup_regs_absent _ _ Hz). cbn. eexists. split; [reflexivity|].
      intros Hnz. now destruct Hnz.
    + destruct (Hvalid Hnz) as [a Ha].
      rewrite (cleanup_regs_mapped _ _ a Hnz Ha). cbn. eexists.
      split; [reflexivity|]. intros Hnz'. now destruct Hnz'.
  - unfold pch_thermal_release. run. case_bool_decide; [|now left]. run.
    case_bool_decide; [|now left].
    right. eexists. split; [reflexivity|]. exact Hvalid.
Qed.

(** X15. Started from a state in which [registers] is null or the base of a
    mapped region, no sequence of entry-point calls, in whatever order and
    with whatever devices, platforms and handles, ever faults on a register
    access: the sequence either runs to its end, leaving [registers] null or
    mapped again, or stops on an assertion. *)
Theorem entry_points_never_page_fault (decode_temp encode_temp : Z -> Z)
    (es : list entry_point) (w : world) :
  registers_valid w ->
  run_entries decode_temp encode_temp es w = Crash AssertFailed
  ∨ (∃ w', run_entries decode_temp encode_temp es w = Ok (tt, w')
         ∧ registers_valid w').
Proof.
  revert w. induction es as [|e es IH]; intros w Hvalid.
  - right. exists w. split; [reflexivity | exact Hvalid].
  - cbn [run_entries]. run.
    destruct (entry_safe decode_temp encode_temp e w Hvalid)
      as [Hcrash | (w1 & Hrun & Hvalid1)].
    + left. now rewrite Hcrash.
    + rewrite Hrun. exact (IH w1 Hvalid1).
Qed.

Lemma entry_points_never_page_fault_witness :
  run_entries example_decode example_encode
    [CallStartup example_platform example_bound_device;
     CallRelease addr_g_pch_thermal_context]
    (grant example_world) = Crash AssertFailed.
Proof.
  destruct (entry_points_never_page_fault example_decode example_encode
              [CallStartup example_platform example_bound_device;
               CallRelease addr_g_pch_thermal_context]
              (grant example_world))
    as [Hcrash | (w' & Hrun & _)].
  - intros Hnz. now destruct Hnz.
  - exact Hcrash.
  - exfalso. vm_compute in Hrun. discriminate Hrun.
Defined.

(** ** A startup followed by a shutdown *)

(** X16. A shutdown that follows a successful startup returns; it leaves the
    context torn down with the claim still held, releases exactly the region
    startup mapped, and leaves the sensor disabled, while the threshold
    startup set and the power-off bit of [tsc] stay in the device. *)
Theorem startup_then_shutdown (decode_temp encode_temp : Z -> Z)
    (P : platform) (d d' : pcie_device_state_t) (w w' : world) :
  pch_thermal_startup decode_temp encode_temp P d w = Ok (NO_ERROR, d', w') ->
  ∃ d3 w3,
    pch_thermal_shutdown d' w' = Ok (d3, w3)
    ∧ g_pch_thermal_context w3 = torn_down (g_pch_thermal_context w)
    ∧ vmm_regions w3 = delete (regs (g_pch_thermal_context w')) (vmm_regions w)
    ∧ Z.testbit (tsel (mmio w3)) 0 = false
    ∧ Z.testbit (tsc (mmio w3)) 0 = true
    ∧ ctt (mmio w3) = ctt (mmio w')
    ∧ events w3 =
        events w'
        ++ [EvSetIrqModeDisabled;
            EvWriteTsel (tsel_disabled (tsel (mmio w')));
            EvVmmFreeRegion (kernel_aspace P) (regs (g_pch_thermal_context w'))].
Proof.
  intros Hrun.
  destruct (startup_success_inv _ _ _ _ _ _ _ Hrun)
    as (b & (_ & Hd & _) & _ & _ & Hv & -> & ->).
  unfold pch_thermal_shutdown. run.
  rewrite bool_decide_eq_true_2 by (cbn; congruence).
  rewrite (cleanup_regs_mapped _ _ (kernel_aspace P)) by
    (try exact Hv; apply lookup_insert_eq).
  cbn. rewrite decide_True by reflexivity.
  eexists _, _. split; [reflexivity|]. cbn.
  split; [reflexivity|]. split; [apply delete_insert_eq|].
  split; [apply tsel_disabled_bit0|]. split; [apply lor_1_bit0|].
  split; [reflexivity|].
  unfold quiesce_events. cbn. rewrite decide_True by exact Hv. reflexivity.
Qed.

Lemma startup_then_shutdown_witness :
  ∃ d' w' d3 w3,
    pch_thermal_startup example_decode example_encode example_platform
      example_bound_device (grant example_world) = Ok (NO_ERROR, d', w')
    ∧ pch_thermal_shutdown d' w' = Ok (d3, w3)
    ∧ g_pch_thermal_context w3
      = {| aspace := NULL; regs := NULL; device_claimed := true |}
    ∧ Z.testbit (tsel (mmio w3)) 0 = false
    ∧ Z.testbit (tsc (mmio w3)) 0 = true.
Proof.
  destruct (startup_returns example_decode example_encode example_platform
              example_bound_device (grant example_world)
              {| bus_addr := 0xfe100000; bar_size := 0x1000 |})
    as (d' & w' & Hrun).
  { repeat split; discriminate. }
  { discriminate. }
  destruct (startup_then_shutdown _ _ _ _ _ _ _ Hrun)
    as (d3 & w3 & Hshut & Hctx & _ & Ht & Hc & _).
  exists d', w', d3, w3. repeat split; assumption.
Defined.

(** ** The threshold step, twice *)

(** X17. On mapped registers the threshold step is idempotent on the device:
    whatever the codec, running it a second time leaves every register as
    the first run left it. *)
Theorem threshold_step_idempotent (decode_temp encode_temp : Z -> Z)
    (w : world) (a : Z) :
  vmm_regions w !! regs (g_pch_thermal_context w) = Some a ->
  ∃ w1 w2,
    set_catastrophic_trip_threshold decode_temp encode_temp w = Ok (tt, w1)
    ∧ set_catastrophic_trip_threshold decode_temp encode_temp w1 = Ok (tt, w2)
    ∧ mmio w2 = mmio w1
    ∧ g_pch_thermal_context w2 = g_pch_thermal_context w
    ∧ vmm_regions w2 = vmm_regions w.
Proof.
  intros Hm. rewrite (threshold_step_run _ _ _ a Hm).
  destruct (113 <=? current_ctt_of decode_temp (ctt (mmio w))) eqn:Hfirst.
  - set (w1 := log (EvWriteCtt (uint16 (encode_temp 113)))
                  (with_mmio {| tsel := tsel (mmio w);
                                ctt := uint16 (encode_temp 113);
                                tsc := tsc (mmio w) |} w)).
    exists w1. rewrite (threshold_step_run _ _ w1 a) by exact Hm.
    destruct (113 <=? current_ctt_of decode_temp (ctt (mmio w1)));
      eexists; (split; [reflexivity|]); (split; [reflexivity|]); cbn; auto.
  - exists w, w. split; [reflexivity|].
    rewrite (threshold_step_run _ _ _ a Hm), Hfirst. auto.
Qed.

Lemma threshold_step_idempotent_witness :
  ∃ w1 w2,
    set_catastrophic_trip_threshold example_decode example_encode
      (mapped_world 340) = Ok (tt, w1)
    ∧ set_catastrophic_trip_threshold example_decode example_encode w1
      = Ok (tt, w2)
    ∧ mmio w2 = mmio w1
    ∧ ctt (mmio w1) = 326.
Proof.
  destruct (threshold_step_idempotent example_decode example_encode
              (mapped_world 340) 0xffff0000 (lookup_singleton_eq _ _))
    as (w1 & w2 & H1 & H2 & Hsame & _).
  exists w1, w2. split; [exact H1|]. split; [exact H2|]. split; [exact Hsame|].
  vm_compute in H1. injection H1 as <-. reflexivity.
Defined.
